(** * Functest backend: paged retrieval of test results

    A shallow embedding of [perceval/backends/opnfv/functest.py]: the
    [Functest] backend and its REST client [FunctestClient].

    Python values are embedded as the inductive [pyval]; exceptions as [exn];
    a computation that may raise returns a [result].  The two generators of
    the module ([FunctestClient.results] and [Functest.fetch_items]) are
    embedded as resumable machines: a state type and a [_next] function
    that runs the body up to its next [yield], [return] or [raise].  The
    network, the archive and the clock are the [Host]; the functions
    imported from the interpreter and from [grimoirelab_toolkit] are the
    [Library]. *)

From Stdlib Require Import ZArith QArith String Ascii List DecimalString.
From Stdlib Require DecimalZ.
From stdpp Require Import base option list gmap strings.

Set Warnings "-register-all".

Local Open Scope string_scope.
Local Open Scope Z_scope.

(** ** Exceptions and results *)

Inductive exn : Type :=
| KeyError (key : string)
| TypeError
| AttributeError
| JSONDecodeError
| InvalidDateError
| OverflowError
| BackendError
| TransportError (status : Z).

Inductive result (A : Type) : Type :=
| Ok (a : A)
| Err (e : exn).

Arguments Ok {A} a.
Arguments Err {A} e.

Definition rbind {A B : Type} (r : result A) (k : A -> result B) : result B :=
  match r with
  | Ok a => k a
  | Err e => Err e
  end.

Notation "'do' x <- r ; k" := (rbind r (fun x => k))
  (at level 10, x name, r at level 100, k at level 200,
   format "'[v' 'do'  x  <-  r ; '/' k ']'").

Definition is_ok {A : Type} (r : result A) : bool :=
  match r with Ok _ => true | Err _ => false end.

(** ** Python values

    The values [json.loads] can return, floats left out: a JSON number with
    a fraction or an exponent is outside this model.  A [dict] keeps its
    insertion order, as in Python.  A string is the sequence of its
    characters, one [ascii] each: the text of the model is ASCII. *)

Inductive pyval : Type :=
| PNone
| PBool (b : bool)
| PInt (n : Z)
| PStr (s : string)
| PList (l : list pyval)
| PDict (d : list (string * pyval)).

Fixpoint dict_get (d : list (string * pyval)) (key : string) : option pyval :=
  match d with
  | [] => None
  | (k, v) :: d' => if String.eqb k key then Some v else dict_get d' key
  end.

(** [v[key]] for a string [key]. *)
Definition getitem (v : pyval) (key : string) : result pyval :=
  match v with
  | PDict d =>
      match dict_get d key with
      | Some x => Ok x
      | None => Err (KeyError key)
      end
  | _ => Err TypeError
  end.

(** The elements [for x in v] visits: the members of a list, the keys of a
    dict, the characters of a string; other values are not iterable. *)
Definition py_iter (v : pyval) : result (list pyval) :=
  match v with
  | PList l => Ok l
  | PDict d => Ok (map (fun kv => PStr (fst kv)) d)
  | PStr s => Ok (map (fun c => PStr (String c EmptyString)) (list_ascii_of_string s))
  | _ => Err TypeError
  end.

(** [bool] is a subclass of [int]: [True] counts as 1. *)
Definition num_of (v : pyval) : option Z :=
  match v with
  | PBool b => Some (Z.b2z b)
  | PInt n => Some n
  | _ => None
  end.

(** [a == b] *)
Fixpoint py_eq (a b : pyval) {struct a} : bool :=
  match a with
  | PNone => match b with PNone => true | _ => false end
  | PBool x => match num_of b with Some n => Z.eqb (Z.b2z x) n | None => false end
  | PInt x => match num_of b with Some n => Z.eqb x n | None => false end
  | PStr s => match b with PStr t => String.eqb s t | _ => false end
  | PList l =>
      match b with
      | PList m =>
          (fix go (l m : list pyval) : bool :=
             match l, m with
             | [], [] => true
             | x :: l', y :: m' => py_eq x y && go l' m'
             | _, _ => false
             end) l m
      | _ => false
      end
  | PDict d =>
      match b with
      | PDict e =>
          Nat.eqb (length d) (length e) &&
          (fix go (d : list (string * pyval)) : bool :=
             match d with
             | [] => true
             | (k, v) :: d' =>
                 match dict_get e k with
                 | Some w => py_eq v w
                 | None => false
                 end && go d'
             end) d
      | _ => false
      end
  end.

(** [a >= b]: numbers by value, strings and lists lexicographically; any
    other pairing raises [TypeError]. *)
Fixpoint py_ge (a b : pyval) {struct a} : result bool :=
  match a with
  | PStr s =>
      match b with
      | PStr t => Ok (String.leb t s)
      | _ => Err TypeError
      end
  | PList l =>
      match b with
      | PList m =>
          (fix go (l m : list pyval) : result bool :=
             match l, m with
             | [], [] => Ok true
             | [], _ :: _ => Ok false
             | _ :: _, [] => Ok true
             | x :: l', y :: m' => if py_eq x y then go l' m' else py_ge x y
             end) l m
      | _ => Err TypeError
      end
  | _ =>
      match num_of a, num_of b with
      | Some x, Some y => Ok (Z.geb x y)
      | _, _ => Err TypeError
      end
  end.

(** [a + k] for an integer literal [k]. *)
Definition py_add (a : pyval) (k : Z) : result pyval :=
  match num_of a with
  | Some x => Ok (PInt (x + k))
  | None => Err TypeError
  end.

Definition string_of_Z (n : Z) : string := NilZero.string_of_int (Z.to_int n).

(** ** Dates

    A [datetime.datetime] value: the civil fields and, for an aware value,
    the UTC offset of its [tzinfo] in seconds ([None] for a naive value). *)

Record datetime : Type := {
  year : Z;
  month : Z;
  day : Z;
  hour : Z;
  minute : Z;
  second : Z;
  microsecond : Z;
  tzinfo : option Z
}.

Definition is_utc (d : datetime) : Prop := tzinfo d = Some 0.

Definition digit (n : Z) : ascii := ascii_of_nat (48 + Z.to_nat (n mod 10)).

Definition zpad2 (n : Z) : string :=
  String (digit (n / 10)) (String (digit n) EmptyString).

(** The four digits of a number from 0 to 9999. *)
Definition zpad4 (n : Z) : string :=
  String (digit (n / 1000)) (String (digit (n / 100)) (zpad2 n)).

(** The [strftime] directives the module uses.  Month, day, hour, minute
    and second are written with two digits.  The year is written by the C
    library of the platform: as it is, without padding (glibc), so that a
    year from 1000 on has its four digits and the year 999 has three. *)
Definition directive (d : datetime) (c : ascii) : option string :=
  match c with
  | "Y"%char => Some (string_of_Z (year d))
  | "m"%char => Some (zpad2 (month d))
  | "d"%char => Some (zpad2 (day d))
  | "H"%char => Some (zpad2 (hour d))
  | "M"%char => Some (zpad2 (minute d))
  | "S"%char => Some (zpad2 (second d))
  | "%"%char => Some "%"
  | _ => None
  end.

(** [d.strftime(fmt)]: directives are expanded, other characters copied. *)
Fixpoint strftime (d : datetime) (fmt : string) : string :=
  match fmt with
  | EmptyString => EmptyString
  | String "%" (String c rest) =>
      match directive d c with
      | Some s => s ++ strftime d rest
      | None => String "%" (String c (strftime d rest))
      end
  | String a rest => String a (strftime d rest)
  end.

(** ** URIs

    [grimoirelab_toolkit.uris.urijoin]: every part loses its leading and
    trailing slashes, and the parts are joined with one slash. *)

Fixpoint lstrip (c : ascii) (s : string) : string :=
  match s with
  | EmptyString => EmptyString
  | String a s' => if Ascii.eqb a c then lstrip c s' else s
  end.

Fixpoint rstrip (c : ascii) (s : string) : string :=
  match s with
  | EmptyString => EmptyString
  | String a s' =>
      match rstrip c s' with
      | EmptyString => if Ascii.eqb a c then EmptyString else String a EmptyString
      | r => String a r
      end
  end.

Definition strip (c : ascii) (s : string) : string := rstrip c (lstrip c s).

Definition urijoin (args : list string) : string :=
  String.concat "/" (map (strip "/") args).

(** ** The library and the host

    Functions the module imports and does not define.  [json_loads] is
    [json.loads]; [py_repr] is the interpreter's [repr], which [str] uses
    for containers; [timestamp] is [datetime.timestamp], whose result type
    (a float) is kept abstract; the other three come from
    [grimoirelab_toolkit.datetime] and [perceval.utils].
    [str_to_datetime_on now] is the toolkit's [str_to_datetime] when the
    local date is [now]: its parser takes from the current date the fields
    that a string leaves out, so the date is an argument here. *)

Class Library : Type := {
  json_loads : string -> result pyval;
  py_repr : pyval -> string;
  pyfloat : Type;
  timestamp : datetime -> pyfloat;
  str_to_datetime_on : datetime -> pyval -> result datetime;
  datetime_to_utc : datetime -> result datetime;
  DEFAULT_DATETIME : datetime
}.

Inductive Archive : Type := ArchiveAt (path : string).

Inductive http_method : Type := GET | POST.

Record request : Type := {
  method : http_method;
  uri : string;
  payload : gmap string pyval
}.

Record FunctestClient : Type := {
  base_url : string;
  max_retries : Z;
  client_archive : option Archive;
  from_archive : bool
}.

(** The outside world: [http_fetch] is [HttpClient.fetch] followed by
    [.text] (the transport with its retries, or the archive when the client
    reads from it), which is given the parameters as they are at the call
    and does not change them; [datetime_utcnow] reads the clock; [today]
    is the local date that the date parser reads, taken to stay the same
    while one call runs. *)
Class Host : Type := {
  World : Type;
  http_fetch : FunctestClient -> request -> World -> result string * World;
  datetime_utcnow : World -> datetime;
  today : datetime
}.

(** What the module relies on from the date helpers. *)
Class DateLaws (L : Library) (W : Host) : Prop := {
  datetime_to_utc_utc : forall d d', datetime_to_utc d = Ok d' -> is_utc d';
  datetime_to_utc_fixed : forall d, is_utc d -> datetime_to_utc d = Ok d;
  DEFAULT_DATETIME_utc : is_utc DEFAULT_DATETIME;
  datetime_utcnow_utc : forall w, is_utc (datetime_utcnow w)
}.

(** [str(v)] *)
Definition py_str {L : Library} (v : pyval) : string :=
  match v with
  | PNone => "None"
  | PBool true => "True"
  | PBool false => "False"
  | PInt n => string_of_Z n
  | PStr s => s
  | PList _ | PDict _ => py_repr v
  end.

(** ** Effects

    The state threaded through the code: the world, and two journals kept
    for the statements below, the requests handed to the transport and the
    calls of [logger.info]. *)

Inductive log_record : Type :=
| LogFetching (url : string) (from_date to_date : option datetime)
| LogCompleted (ndata : Z).

Record env `{Host} : Type := {
  world : World;
  sent : list request;
  logged : list log_record
}.

(** What resuming a generator gives: a value, nothing yet ([Tau], the body
    is still running), the end of the iteration, or an exception. *)
Inductive signal (A : Type) : Type :=
| Yield (a : A)
| Tau
| Stop
| Raise (e : exn).

Arguments Yield {A} a.
Arguments Tau {A}.
Arguments Stop {A}.
Arguments Raise {A} e.

(** ** The module *)

Definition CATEGORY_FUNCTEST : string := "functest".

Record Functest : Type := {
  origin : string;
  tag : option string;
  archive : option Archive;
  url : string;
  client : option FunctestClient
}.

Definition version : string := "0.4.2".
Definition CATEGORIES : list string := [CATEGORY_FUNCTEST].

(** [Functest.__init__] *)
Definition Functest_init (url : string) (tag : option string)
    (archive : option Archive) : Functest :=
  {| origin := url; tag := tag; archive := archive; url := url;
     client := None |}.

Definition has_archiving : bool := true.
Definition has_resuming : bool := false.

Definition FUNCTEST_API_PATH : string := "/api/v1/".
Definition RRESULTS : string := "results".
Definition PFROM_DATE : string := "from".
Definition PTO_DATE : string := "to".
Definition PPAGE : string := "page".
Definition MAX_RETRIES : Z := 3.

(** [FunctestClient.__init__] *)
Definition FunctestClient_init (base_url : string) (archive : option Archive)
    (from_archive : bool) : FunctestClient :=
  {| base_url := base_url; max_retries := MAX_RETRIES;
     client_archive := archive; from_archive := from_archive |}.

(** [Functest._init_client] *)
Definition _init_client (self : Functest) (from_archive : bool) : FunctestClient :=
  FunctestClient_init (url self) (archive self) from_archive.

Definition DATE_FORMAT : string := "%Y-%m-%d %H:%M:%S".

(** The fields of a date that [DATE_FORMAT] names. *)
Definition printed_fields (d : datetime) : Z * Z * Z * Z * Z * Z :=
  (year d, month d, day d, hour d, minute d, second d).

Section Backend.

Context {L : Library} {W : Host}.

(** [self.fetch(url, payload=params).text] in [FunctestClient]: the
    inherited [HttpClient.fetch], whose method defaults to GET. *)
Definition HttpClient_fetch (self : FunctestClient) (url : string)
    (payload : gmap string pyval) (e : env) : result string * env :=
  let req := {| method := GET; uri := url; payload := payload |} in
  let (r, w) := http_fetch self req (world e) in
  (r, {| world := w; sent := sent e ++ [req]; logged := logged e |}).

Definition logger_info (r : log_record) (e : env) : env :=
  {| world := world e; sent := sent e; logged := logged e ++ [r] |}.

(** [Functest.metadata_id] *)
Definition metadata_id (item : pyval) : result string :=
  do v <- getitem item "_id";
  Ok (py_str v).

(** [grimoirelab_toolkit.datetime.str_to_datetime], on the date of the
    host. *)
Definition str_to_datetime (ts : pyval) : result datetime :=
  str_to_datetime_on today ts.

(** [Functest.metadata_updated_on] *)
Definition metadata_updated_on (item : pyval) : result pyfloat :=
  do ts <- getitem item "start_date";
  do ts <- str_to_datetime ts;
  Ok (timestamp ts).

(** [Functest.metadata_category] *)
Definition metadata_category (item : pyval) : string := CATEGORY_FUNCTEST.

(** [Functest.parse_json] *)
Definition parse_json (raw_json : string) : result pyval :=
  do result <- json_loads raw_json;
  getitem result "results".

(** *** [FunctestClient.results]

    The generator is new (its body has not started), suspended at its
    [yield content], or closed. *)

Inductive results_gen : Type :=
| RNew (self : FunctestClient) (from_date to_date : option datetime)
| RYielded (self : FunctestClient) (params : gmap string pyval) (content : string)
| RClosed.

Definition results (self : FunctestClient) (from_date to_date : option datetime)
    : results_gen :=
  RNew self from_date to_date.

(** The parameters built before the loop. *)
Definition initial_params (from_date : datetime) (to_date : option datetime)
    : gmap string pyval :=
  let fdt := strftime from_date DATE_FORMAT in
  let params : gmap string pyval := {[ PFROM_DATE := PStr fdt; PPAGE := PInt 1 ]} in
  match to_date with
  | Some to_date =>
      let tdt := strftime to_date DATE_FORMAT in
      <[ PTO_DATE := PStr tdt ]> params
  | None => params
  end.

(** The head of the loop body, up to [yield content]. *)
Definition results_request (self : FunctestClient) (params : gmap string pyval)
    (e : env) : signal string * results_gen * env :=
  let url := urijoin [base_url self; FUNCTEST_API_PATH; RRESULTS] in
  match HttpClient_fetch self url params e with
  | (Ok content, e') => (Yield content, RYielded self params content, e')
  | (Err x, e') => (Raise x, RClosed, e')
  end.

(** The tail of the loop body, after [yield content]: [None] for [break],
    otherwise the parameters of the next request. *)
Definition results_advance (params : gmap string pyval) (content : string)
    : result (option (gmap string pyval)) :=
  do j <- json_loads content;
  do pagination <- getitem j "pagination";
  do page <- getitem pagination "current_page";
  do pagination <- getitem j "pagination";
  do total_pages <- getitem pagination "total_pages";
  do last <- py_ge page total_pages;
  if last : bool then Ok None
  else
    do next <- py_add page 1;
    Ok (Some (<[ PPAGE := next ]> params)).

Definition results_next (g : results_gen) (e : env)
    : signal string * results_gen * env :=
  match g with
  | RNew self from_date to_date =>
      match from_date with
      | None => (Raise AttributeError, RClosed, e)
      | Some from_date => results_request self (initial_params from_date to_date) e
      end
  | RYielded self params content =>
      match results_advance params content with
      | Err x => (Raise x, RClosed, e)
      | Ok None => (Stop, RClosed, e)
      | Ok (Some params') => results_request self params' e
      end
  | RClosed => (Stop, RClosed, e)
  end.

(** *** [Functest.fetch_items]

    The generator is new, at the head of [for raw_page in pages],
    suspended at [yield test_data] with the elements of [parsed_data]
    still to visit, or closed. *)

Inductive fetch_items_gen : Type :=
| FNew (self : Functest) (category : string) (kwargs : gmap string (option datetime))
| FPages (pages : results_gen) (ndata : Z)
| FYielded (pages : results_gen) (parsed_data : list pyval) (ndata : Z)
| FClosed.

Definition fetch_items (self : Functest) (category : string)
    (kwargs : gmap string (option datetime)) : fetch_items_gen :=
  FNew self category kwargs.

Definition kwarg (kwargs : gmap string (option datetime)) (key : string)
    : result (option datetime) :=
  match kwargs !! key with
  | Some v => Ok v
  | None => Err (KeyError key)
  end.

Definition fetch_items_start (self : Functest)
    (kwargs : gmap string (option datetime)) (e : env)
    : result results_gen * env :=
  match kwarg kwargs "from_date" with
  | Err x => (Err x, e)
  | Ok from_date =>
      match kwarg kwargs "to_date" with
      | Err x => (Err x, e)
      | Ok to_date =>
          let e := logger_info (LogFetching (url self) from_date to_date) e in
          match client self with
          | None => (Err AttributeError, e)
          | Some c => (Ok (results c from_date to_date), e)
          end
      end
  end.

(** The head of [for test_data in parsed_data]. *)
Definition fetch_items_inner (pages : results_gen) (parsed_data : list pyval)
    (ndata : Z) (e : env) : signal pyval * fetch_items_gen * env :=
  match parsed_data with
  | [] => (Tau, FPages pages ndata, e)
  | test_data :: rest => (Yield test_data, FYielded pages rest ndata, e)
  end.

Definition fetch_items_next (g : fetch_items_gen) (e : env)
    : signal pyval * fetch_items_gen * env :=
  match g with
  | FNew self category kwargs =>
      match fetch_items_start self kwargs e with
      | (Err x, e') => (Raise x, FClosed, e')
      | (Ok pages, e') => (Tau, FPages pages 0, e')
      end
  | FPages pages ndata =>
      match results_next pages e with
      | (Yield raw_page, pages', e') =>
          match (do parsed_data <- parse_json raw_page; py_iter parsed_data) with
          | Ok parsed_data => fetch_items_inner pages' parsed_data ndata e'
          | Err x => (Raise x, FClosed, e')
          end
      | (Tau, pages', e') => (Tau, FPages pages' ndata, e')
      | (Stop, _, e') => (Stop, FClosed, logger_info (LogCompleted ndata) e')
      | (Raise x, _, e') => (Raise x, FClosed, e')
      end
  | FYielded pages parsed_data ndata =>
      fetch_items_inner pages parsed_data (ndata + 1) e
  | FClosed => (Stop, FClosed, e)
  end.

(** *** The framework's driver

    [Functest] inherits [fetch] and [metadata] from the [Backend] class of
    the shared framework, whose code is not part of this module. *)

(** Modelled from the spec: the Normalized Item of its section 3, made of
    the identifier, the update time, the category and the record itself. *)
Record normalized_item : Type := {
  identifier : string;
  updated_on : pyfloat;
  item_category : string;
  data : pyval
}.

(** Modelled from the spec: [Backend.metadata], which builds the
    Normalized Item of a record with the three extraction functions of
    the backend (section 4.3); an error of an extraction is not caught. *)
Definition metadata (item : pyval) : result normalized_item :=
  do id <- metadata_id item;
  do ts <- metadata_updated_on item;
  Ok {| identifier := id; updated_on := ts;
        item_category := metadata_category item; data := item |}.

(** Modelled from the spec: the generator of [Backend.fetch]: new,
    iterating [fetch_items], or closed. *)
Inductive Backend_fetch_gen : Type :=
| BNew (self : Functest) (category : string) (kwargs : gmap string (option datetime))
| BItems (self : Functest) (items : fetch_items_gen)
| BClosed.

(** Modelled from the spec: [Backend.fetch], a generator function. *)
Definition Backend_fetch (self : Functest) (category : string)
    (kwargs : gmap string (option datetime)) : Backend_fetch_gen :=
  BNew self category kwargs.

(** [self.client = c] *)
Definition with_client (self : Functest) (c : FunctestClient) : Functest :=
  {| origin := origin self; tag := tag self; archive := archive self;
     url := url self; client := Some c |}.

(** Modelled from the spec: the body of [Backend.fetch] (section 4.1).
    A category other than the supported one is refused before any I/O; a
    client bound to the backend's URL and archive is opened; every record
    of [fetch_items] is handed on as its Normalized Item, in order; any
    error ends the call (section 7). *)
Definition Backend_fetch_next (g : Backend_fetch_gen) (e : env)
    : signal normalized_item * Backend_fetch_gen * env :=
  match g with
  | BNew self category kwargs =>
      if bool_decide (category ∈ CATEGORIES) then
        let self := with_client self (_init_client self false) in
        (Tau, BItems self (fetch_items self category kwargs), e)
      else (Raise BackendError, BClosed, e)
  | BItems self items =>
      match fetch_items_next items e with
      | (Yield item, items', e') =>
          match metadata item with
          | Ok it => (Yield it, BItems self items', e')
          | Err x => (Raise x, BClosed, e')
          end
      | (Tau, items', e') => (Tau, BItems self items', e')
      | (Stop, _, e') => (Stop, BClosed, e')
      | (Raise x, _, e') => (Raise x, BClosed, e')
      end
  | BClosed => (Stop, BClosed, e)
  end.

(** *** [Functest.fetch]

    An ordinary function: the dates are resolved when it is called, and
    the generator of the driver is returned.  An argument left out of the
    call is [None] here and takes the default of the signature. *)
Definition fetch (self : Functest) (category : option string)
    (from_date to_date : option (option datetime)) (e : env)
    : result Backend_fetch_gen :=
  let category := default CATEGORY_FUNCTEST category in
  let from_date := default (Some DEFAULT_DATETIME) from_date in
  let to_date := default None to_date in
  do from_date <- match from_date with
                  | Some d => datetime_to_utc d
                  | None => Ok DEFAULT_DATETIME
                  end;
  do to_date <- match to_date with
                | Some d => datetime_to_utc d
                | None => Ok (datetime_utcnow (world e))
                end;
  let kwargs : gmap string (option datetime) :=
    {[ "from_date" := Some from_date; "to_date" := Some to_date ]} in
  Ok (Backend_fetch self category kwargs).

(** *** Iterating a generator

    [run next fuel g e] resumes [g] until it ends, raises, or [fuel]
    resumptions have been made; it gives the values yielded, how the
    iteration stood, and the generator and the state reached. *)

Inductive status : Type :=
| Finished
| Failed (x : exn)
| Pending.

Fixpoint run {G A : Type} (next : G -> env -> signal A * G * env)
    (fuel : nat) (g : G) (e : env) : list A * status * G * env :=
  match fuel with
  | O => ([], Pending, g, e)
  | S fuel =>
      match next g e with
      | (Yield a, g', e') =>
          let '(l, st, g'', e'') := run next fuel g' e' in
          (a :: l, st, g'', e'')
      | (Tau, g', e') => run next fuel g' e'
      | (Stop, g', e') => ([], Finished, g', e')
      | (Raise x, g', e') => ([], Failed x, g', e')
      end
  end.

(** *** Reading a run

    The pagination envelope of a page, as the tail of the loop reads it. *)
Definition envelope (content : string) : result (pyval * pyval) :=
  do j <- json_loads content;
  do pagination <- getitem j "pagination";
  do page <- getitem pagination "current_page";
  do pagination <- getitem j "pagination";
  do total_pages <- getitem pagination "total_pages";
  Ok (page, total_pages).

(** The requests handed to the transport between two states. *)
Definition requests_since (e e' : env) : list request :=
  drop (length (sent e)) (sent e').

Definition results_url (self : FunctestClient) : string :=
  urijoin [base_url self; FUNCTEST_API_PATH; RRESULTS].

Definition get_request (self : FunctestClient) (params : gmap string pyval)
    : request :=
  {| method := GET; uri := results_url self; payload := params |}.

(** [page_chain self params pages reqs]: starting with [params], the
    pages [pages] came back for the requests [reqs]; each request after
    the first carries the parameters of the one before with [page] set to
    one more than the page number its answer reported. *)
Inductive page_chain (self : FunctestClient)
    : gmap string pyval -> list string -> list request -> Prop :=
| chain_idle params : page_chain self params [] []
| chain_failed params : page_chain self params [] [get_request self params]
| chain_last params content :
    page_chain self params [content] [get_request self params]
| chain_next params content page total_pages n pages reqs :
    envelope content = Ok (page, total_pages) ->
    num_of page = Some n ->
    page_chain self (<[ PPAGE := PInt (n + 1) ]> params) pages reqs ->
    page_chain self params (content :: pages) (get_request self params :: reqs).

End Backend.

(** ** A concrete library and host

    One implementation of [Library] and [Host] on which the module can be
    run: a JSON reader for the integer fragment, an ISO date reader, exact
    timestamps, and a server that answers from a script. *)

Module Sample.

Definition dquote : ascii := ascii_of_nat 34.
Definition backslash : ascii := ascii_of_nat 92.

(** JSON text is written below with ['] in place of the double quote. *)
Fixpoint json_text (s : string) : string :=
  match s with
  | EmptyString => EmptyString
  | String c s' => String (if Ascii.eqb c "'" then dquote else c) (json_text s')
  end.

Definition is_ws (c : ascii) : bool :=
  Ascii.eqb c " " || Ascii.eqb c (ascii_of_nat 10) ||
  Ascii.eqb c (ascii_of_nat 13) || Ascii.eqb c (ascii_of_nat 9).

Definition is_digit (c : ascii) : bool :=
  (48 <=? nat_of_ascii c)%nat && (nat_of_ascii c <=? 57)%nat.

Definition digit_val (c : ascii) : Z := Z.of_nat (nat_of_ascii c) - 48.

Fixpoint skip_ws (s : string) : string :=
  match s with
  | String c s' => if is_ws c then skip_ws s' else s
  | EmptyString => EmptyString
  end.

(** The characters of a string literal after its opening quote, and the
    text after its closing quote. *)
Fixpoint read_string (s : string) : option (string * string) :=
  match s with
  | EmptyString => None
  | String c s' =>
      if Ascii.eqb c dquote then Some (EmptyString, s')
      else if Ascii.eqb c backslash then
        match s' with
        | String x s'' =>
            let unescaped :=
              if Ascii.eqb x "n" then Some (ascii_of_nat 10)
              else if Ascii.eqb x "t" then Some (ascii_of_nat 9)
              else if Ascii.eqb x "r" then Some (ascii_of_nat 13)
              else if Ascii.eqb x dquote || Ascii.eqb x backslash || Ascii.eqb x "/"
              then Some x else None in
            match unescaped, read_string s'' with
            | Some y, Some (t, r) => Some (String y t, r)
            | _, _ => None
            end
        | EmptyString => None
        end
      else
        match read_string s' with
        | Some (t, r) => Some (String c t, r)
        | None => None
        end
  end.

Fixpoint read_digits (s : string) (acc : Z) : Z * string :=
  match s with
  | String c s' => if is_digit c then read_digits s' (10 * acc + digit_val c) else (acc, s)
  | EmptyString => (acc, s)
  end.

(** An integer literal; a fraction or an exponent is refused. *)
Definition read_int (s : string) : option (Z * string) :=
  let '(neg, s) :=
    match s with
    | String "-" s' => (true, s')
    | _ => (false, s)
    end in
  match s with
  | String c s' =>
      if is_digit c then
        let '(n, r) := read_digits s 0 in
        let leading_zero :=
          Ascii.eqb c "0" && match s' with String c' _ => is_digit c' | _ => false end in
        let float_tail :=
          match r with
          | String c' _ => Ascii.eqb c' "." || Ascii.eqb c' "e" || Ascii.eqb c' "E"
          | EmptyString => false
          end in
        if leading_zero || float_tail then None
        else Some (if neg then - n else n, r)
      else None
  | EmptyString => None
  end.

Fixpoint dict_set (d : list (string * pyval)) (key : string) (v : pyval)
    : list (string * pyval) :=
  match d with
  | [] => [(key, v)]
  | (k, w) :: d' => if String.eqb k key then (k, v) :: d' else (k, w) :: dict_set d' key v
  end.

Definition literal (word : string) (v : pyval) (s : string) : option (pyval * string) :=
  if String.prefix word s
  then Some (v, substring (String.length word) (String.length s - String.length word) s)
  else None.

Fixpoint read_value (fuel : nat) (s : string) : option (pyval * string) :=
  match fuel with
  | O => None
  | S fuel =>
      match skip_ws s with
      | EmptyString => None
      | String c r =>
          if Ascii.eqb c "[" then
            match skip_ws r with
            | String "]" r' => Some (PList [], r')
            | _ =>
                (fix elements (n : nat) (r : string) (acc : list pyval) :=
                   match n with
                   | O => None
                   | S n =>
                       match read_value fuel r with
                       | Some (v, r1) =>
                           match skip_ws r1 with
                           | String "," r2 => elements n r2 (v :: acc)
                           | String "]" r2 => Some (PList (rev (v :: acc)), r2)
                           | _ => None
                           end
                       | None => None
                       end
                   end) fuel r []
            end
          else if Ascii.eqb c "{" then
            match skip_ws r with
            | String "}" r' => Some (PDict [], r')
            | _ =>
                (fix members (n : nat) (r : string) (acc : list (string * pyval)) :=
                   match n with
                   | O => None
                   | S n =>
                       match skip_ws r with
                       | String q r0 =>
                           if Ascii.eqb q dquote then
                             match read_string r0 with
                             | Some (k, r1) =>
                                 match skip_ws r1 with
                                 | String ":" r2 =>
                                     match read_value fuel r2 with
                                     | Some (v, r3) =>
                                         match skip_ws r3 with
                                         | String "," r4 => members n r4 (dict_set acc k v)
                                         | String "}" r4 => Some (PDict (dict_set acc k v), r4)
                                         | _ => None
                                         end
                                     | None => None
                                     end
                                 | _ => None
                                 end
                             | None => None
                             end
                           else None
                       | EmptyString => None
                       end
                   end) fuel r []
            end
          else if Ascii.eqb c dquote then
            match read_string r with
            | Some (t, r') => Some (PStr t, r')
            | None => None
            end
          else if Ascii.eqb c "t" then literal "true" (PBool true) (String c r)
          else if Ascii.eqb c "f" then literal "false" (PBool false) (String c r)
          else if Ascii.eqb c "n" then literal "null" PNone (String c r)
          else
            match read_int (String c r) with
            | Some (n, r') => Some (PInt n, r')
            | None => None
            end
      end
  end.

Definition loads (s : string) : result pyval :=
  match read_value (S (String.length s)) s with
  | Some (v, r) =>
      match skip_ws r with
      | EmptyString => Ok v
      | _ => Err JSONDecodeError
      end
  | None => Err JSONDecodeError
  end.

(** [repr] of a value whose strings need no escape. *)
Fixpoint repr (v : pyval) : string :=
  match v with
  | PNone => "None"
  | PBool true => "True"
  | PBool false => "False"
  | PInt n => string_of_Z n
  | PStr s => "'" ++ s ++ "'"
  | PList l => "[" ++ String.concat ", " (map repr l) ++ "]"
  | PDict d =>
      "{" ++ String.concat ", "
               (map (fun kv => let '(k, x) := kv in "'" ++ k ++ "': " ++ repr x) d)
          ++ "}"
  end.

(** *** Dates *)

Definition digits_at (s : string) (i n : nat) : option Z :=
  let t := substring i n s in
  if (String.length t =? n)%nat && forallb is_digit (list_ascii_of_string t)
  then Some (fst (read_digits t 0))
  else None.

Definition char_is (s : string) (i : nat) (c : ascii) : bool :=
  match String.get i s with
  | Some x => Ascii.eqb x c
  | None => false
  end.

Definition is_leap (y : Z) : bool :=
  (y mod 4 =? 0) && (negb (y mod 100 =? 0) || (y mod 400 =? 0)).

Definition days_in_month (y m : Z) : Z :=
  if m =? 2 then (if is_leap y then 29 else 28)
  else if (m =? 4) || (m =? 6) || (m =? 9) || (m =? 11) then 30
  else 31.

Definition valid_fields (y mo d h mi se : Z) : bool :=
  (1 <=? y) && (y <=? 9999) && (1 <=? mo) && (mo <=? 12) &&
  (1 <=? d) && (d <=? days_in_month y mo) &&
  (h <? 24) && (mi <? 60) && (se <? 60).

(** Reads [YYYY-MM-DDTHH:MM:SS] (or with a space for the [T]), and a
    time [HH:MM:SS] alone, whose date is then the current one; a date
    without a zone is taken as UTC, as [str_to_datetime] does. *)
Definition read_datetime (now : datetime) (v : pyval) : result datetime :=
  match v with
  | PStr s =>
      if (String.length s =? 8)%nat then
        match digits_at s 0 2, digits_at s 3 2, digits_at s 6 2 with
        | Some h, Some mi, Some se =>
            if char_is s 2 ":" && char_is s 5 ":" &&
               valid_fields (year now) (month now) (day now) h mi se
            then Ok {| year := year now; month := month now; day := day now;
                       hour := h; minute := mi; second := se;
                       microsecond := 0; tzinfo := Some 0 |}
            else Err InvalidDateError
        | _, _, _ => Err InvalidDateError
        end
      else
      match digits_at s 0 4, digits_at s 5 2, digits_at s 8 2,
            digits_at s 11 2, digits_at s 14 2, digits_at s 17 2 with
      | Some y, Some mo, Some d, Some h, Some mi, Some se =>
          if (String.length s =? 19)%nat &&
             char_is s 4 "-" && char_is s 7 "-" &&
             (char_is s 10 "T" || char_is s 10 " ") &&
             char_is s 13 ":" && char_is s 16 ":" &&
             valid_fields y mo d h mi se
          then Ok {| year := y; month := mo; day := d; hour := h; minute := mi;
                     second := se; microsecond := 0; tzinfo := Some 0 |}
          else Err InvalidDateError
      | _, _, _, _, _, _ => Err InvalidDateError
      end
  | _ => Err InvalidDateError
  end.

(** Days from 1970-01-01 to a civil date, and back. *)
Definition days_from_civil (y m d : Z) : Z :=
  let y := if m <=? 2 then y - 1 else y in
  let era := y / 400 in
  let yoe := y - era * 400 in
  let doy := (153 * (m + (if 2 <? m then -3 else 9)) + 2) / 5 + d - 1 in
  let doe := yoe * 365 + yoe / 4 - yoe / 100 + doy in
  era * 146097 + doe - 719468.

Definition civil_from_days (z : Z) : Z * Z * Z :=
  let z := z + 719468 in
  let era := z / 146097 in
  let doe := z - era * 146097 in
  let yoe := (doe - doe / 1460 + doe / 36524 - doe / 146096) / 365 in
  let y := yoe + era * 400 in
  let doy := doe - (365 * yoe + yoe / 4 - yoe / 100) in
  let mp := (5 * doy + 2) / 153 in
  let d := doy - (153 * mp + 2) / 5 + 1 in
  let m := mp + (if mp <? 10 then 3 else -9) in
  (if m <=? 2 then y + 1 else y, m, d).

(** Seconds from the epoch; a naive value is read in the local zone, UTC
    on this host. *)
Definition unix_seconds (d : datetime) : Z :=
  days_from_civil (year d) (month d) (day d) * 86400
  + hour d * 3600 + minute d * 60 + second d - default 0 (tzinfo d).

Definition unix_timestamp (d : datetime) : Q :=
  Qred (Qmake (unix_seconds d * 1000000 + microsecond d) 1000000).

Definition to_utc (d : datetime) : result datetime :=
  match tzinfo d with
  | None =>
      Ok {| year := year d; month := month d; day := day d; hour := hour d;
            minute := minute d; second := second d;
            microsecond := microsecond d; tzinfo := Some 0 |}
  | Some 0 => Ok d
  | Some _ =>
      let t := unix_seconds d in
      let '(y, m, dd) := civil_from_days (t / 86400) in
      let r := t mod 86400 in
      if (1 <=? y) && (y <=? 9999) then
        Ok {| year := y; month := m; day := dd; hour := r / 3600;
              minute := r mod 3600 / 60; second := r mod 60;
              microsecond := microsecond d; tzinfo := Some 0 |}
      else Err OverflowError
  end.

(** [perceval.utils.DEFAULT_DATETIME], the fixed default of [from_date]:
    the UNIX epoch, in UTC. *)
Definition epoch : datetime :=
  {| year := 1970; month := 1; day := 1; hour := 0; minute := 0; second := 0;
     microsecond := 0; tzinfo := Some 0 |}.

Definition library : Library :=
  {| json_loads := loads;
     py_repr := repr;
     pyfloat := Q;
     timestamp := unix_timestamp;
     str_to_datetime_on := read_datetime;
     datetime_to_utc := to_utc;
     DEFAULT_DATETIME := epoch |}.

(** *** A scripted server

    The world holds the clock and the replies still to give; every request
    takes the next reply, whatever it asks for. *)

Record server : Type := {
  clock : datetime;
  replies : list (result string)
}.

Definition serve (c : FunctestClient) (r : request) (w : server)
    : result string * server :=
  match replies w with
  | [] => (Err (TransportError 503), w)
  | x :: rest => (x, {| clock := clock w; replies := rest |})
  end.

Definition utcnow (w : server) : datetime :=
  {| year := year (clock w); month := month (clock w); day := day (clock w);
     hour := hour (clock w); minute := minute (clock w);
     second := second (clock w); microsecond := microsecond (clock w);
     tzinfo := Some 0 |}.

(** The local date of the sample host, and the day after. *)
Definition mid_june : datetime :=
  {| year := 2018; month := 6; day := 15; hour := 0; minute := 0; second := 0;
     microsecond := 0; tzinfo := None |}.


Definition host : Host :=
  {| World := server; http_fetch := serve; datetime_utcnow := utcnow;
     today := mid_june |}.


Definition start (now : datetime) (script : list (result string)) : @env host :=
  {| world := ({| clock := now; replies := script |} : @World host);
     sent := []; logged := [] |}.

(** *** Scenarios *)

Definition record_1 : pyval :=
  PDict [("_id", PInt 1); ("start_date", PStr "2017-01-01T00:00:00")].

Definition record_b7 : pyval :=
  PDict [("_id", PStr "b7"); ("start_date", PStr "2017-01-02T12:30:00")].

Definition record_undated : pyval := PDict [("_id", PInt 2)].



Definition year_999 : datetime :=
  {| year := 999; month := 1; day := 2; hour := 3; minute := 4; second := 5;
     microsecond := 0; tzinfo := Some 0 |}.

Definition page_1_of_2 : string :=
  json_text "{'results': [{'_id': 1, 'start_date': '2017-01-01T00:00:00'}], 'pagination': {'current_page': 1, 'total_pages': 2}}".

Definition page_2_of_2 : string :=
  json_text "{'results': [{'_id': 'b7', 'start_date': '2017-01-02T12:30:00'}], 'pagination': {'current_page': 2, 'total_pages': 2}}".

(** A server that numbers its pages on its own. *)
Definition page_5_of_10 : string :=
  json_text "{'results': [], 'pagination': {'current_page': 5, 'total_pages': 10}}".

Definition page_10_of_10 : string :=
  json_text "{'results': [], 'pagination': {'current_page': 10, 'total_pages': 10}}".

(** Pages whose [results] is not an array, or is missing. *)
Definition page_results_object : string :=
  json_text "{'results': {}, 'pagination': {'current_page': 1, 'total_pages': 2}}".

Definition page_results_string : string :=
  json_text "{'results': 'ab', 'pagination': {'current_page': 1, 'total_pages': 1}}".

Definition page_results_empty_string : string :=
  json_text "{'results': '', 'pagination': {'current_page': 1, 'total_pages': 2}}".

Definition page_without_results : string :=
  json_text "{'pagination': {'current_page': 1, 'total_pages': 1}}".

(** A page whose second record has no [start_date]. *)
Definition page_undated_record : string :=
  json_text "{'results': [{'_id': 1, 'start_date': '2017-01-01T00:00:00'}, {'_id': 2}, {'_id': 'b7', 'start_date': '2017-01-02T12:30:00'}], 'pagination': {'current_page': 1, 'total_pages': 1}}".

Definition functest_url : string := "http://functest.example/".

Definition functest_client : FunctestClient :=
  FunctestClient_init functest_url None false.

Definition backend : Functest := Functest_init functest_url None None.

Definition bound_backend : Functest := with_client backend functest_client.

Definition since_epoch : gmap string (option datetime) :=
  {[ "from_date" := Some epoch; "to_date" := None ]}.

Definition new_year_2018 : datetime :=
  {| year := 2018; month := 1; day := 1; hour := 0; minute := 0; second := 0;
     microsecond := 0; tzinfo := Some 0 |}.

(** A date one hour east of UTC, with no zone written on the clock. *)
Definition cet_date : datetime :=
  {| year := 2017; month := 1; day := 1; hour := 0; minute := 30; second := 0;
     microsecond := 0; tzinfo := Some 3600 |}.

Definition wall_clock : datetime :=
  {| year := 2018; month := 6; day := 15; hour := 9; minute := 5; second := 7;
     microsecond := 0; tzinfo := None |}.

(** The runs looked at below. *)

Definition two_pages : @env host :=
  start wall_clock [Ok page_1_of_2; Ok page_2_of_2; Ok page_1_of_2].

Definition own_numbering : @env host :=
  start wall_clock [Ok page_5_of_10; Ok page_10_of_10].

Definition run_two_pages : list string * status * results_gen * @env host :=
  run (results_next (L:=library)) 5
      (results functest_client (Some epoch) (Some new_year_2018)) two_pages.

Definition run_own_numbering : list string * status * results_gen * @env host :=
  run (results_next (L:=library)) 5
      (results functest_client (Some epoch) None) own_numbering.

Definition page_1_of_1 : string :=
  json_text "{'results': [{'_id': 1, 'start_date': '2017-01-01T00:00:00'}], 'pagination': {'current_page': 1, 'total_pages': 1}}".

Definition single_page : @env host := start wall_clock [Ok page_1_of_1].

Definition undated_record_page : @env host :=
  start wall_clock [Ok page_undated_record].

Definition run_undated_record : list pyval * status * fetch_items_gen * @env host :=
  run (fetch_items_next (L:=library)) 8
      (fetch_items bound_backend "functest" since_epoch) undated_record_page.

Definition no_results_page : @env host :=
  start wall_clock [Ok page_without_results; Ok page_2_of_2].

Definition object_then_page : @env host :=
  start wall_clock [Ok page_results_object; Ok page_2_of_2].

Definition string_page : @env host :=
  start wall_clock [Ok page_results_string].

Definition empty_string_then_page : @env host :=
  start wall_clock [Ok page_results_empty_string; Ok page_2_of_2].

Definition item_1 : @normalized_item library :=
  @Build_normalized_item library "1" (inject_Z 1483228800) "functest" record_1.

Definition item_b7 : @normalized_item library :=
  @Build_normalized_item library "b7" (inject_Z 1483360200) "functest" record_b7.

(** *** Further scenarios *)

(** A page with records and no pagination envelope. *)
Definition page_without_pagination : string :=
  json_text "{'results': [{'_id': 1, 'start_date': '2017-01-01T00:00:00'}, {'_id': 'b7', 'start_date': '2017-01-02T12:30:00'}]}".

Definition no_pagination_page : @env host :=
  start wall_clock [Ok page_without_pagination; Ok page_2_of_2].

Definition first_no_pagination : signal string * results_gen * @env host :=
  results_next (L:=library) (results functest_client (Some epoch) None)
               no_pagination_page.

(** A server that answers every request with the same page, never the
    last one. *)
Definition stuck_host : Host :=
  {| World := unit;
     http_fetch := fun _ _ w => (Ok page_5_of_10, w);
     datetime_utcnow := fun _ => epoch;
     today := mid_june |}.

Definition stuck_start : @env stuck_host :=
  {| world := (tt : @World stuck_host); sent := []; logged := [] |}.

Definition record_1_as_text : pyval :=
  PDict [("start_date", PStr "2018-03-04T05:06:07"); ("_id", PStr "1")].

(** Two dates of the same second, in different zones. *)
Definition epoch_and_a_bit : datetime :=
  {| year := 1970; month := 1; day := 1; hour := 0; minute := 0; second := 0;
     microsecond := 999999; tzinfo := Some 7200 |}.

Definition run_two_pages_items : list pyval * status * fetch_items_gen * @env host :=
  run (fetch_items_next (L:=library)) 9
      (fetch_items bound_backend "functest" since_epoch) two_pages.

Definition first_undated : signal string * results_gen * @env host :=
  results_next (L:=library) (results functest_client (Some epoch) None)
               undated_record_page.

End Sample.

(** * Properties *)

Section Properties.

Context {L : Library} {W : Host}.

Local Open Scope list_scope.

(** ** Results *)

Lemma rbind_ok {A B : Type} (r : result A) (k : A -> result B) (b : B) :
  rbind r k = Ok b -> exists a, r = Ok a /\ k a = Ok b.
Proof. destruct r as [a|x]; simpl; intros E; [eauto | discriminate]. Qed.

(** ** Identity and time of a record *)

(** C4. For a record with an [_id] field, [metadata_id] returns the string
    form of the field's value: the decimal digits of an integer, and a
    string unchanged. *)
Theorem metadata_id_is_str (item v : pyval) :
  getitem item "_id" = Ok v ->
  metadata_id item = Ok (py_str v)
  /\ (forall n, v = PInt n -> metadata_id item = Ok (string_of_Z n))
  /\ (forall s, v = PStr s -> metadata_id item = Ok s).
Proof.
  intros E. unfold metadata_id. rewrite E. simpl.
  split; [reflexivity | split; intros ? ->; reflexivity].
Qed.


(** ** The query window *)

(** C6. [fetch] replaces a [from_date] left out or [None] by
    [DEFAULT_DATETIME] and a [to_date] left out or [None] by the time of
    the clock when it is called; a date that is given goes through
    [datetime_to_utc]; the two dates handed on are in UTC.  The call
    succeeds, with exactly these two dates, whenever the conversion of
    each date that is given succeeds (always, when none is given), and it
    fails with the error of the first conversion that fails. *)
Theorem fetch_resolves_dates (laws : DateLaws L W) (self : Functest)
    (category : option string) (from_date to_date : option (option datetime))
    (e : env) :
  (forall g, fetch self category from_date to_date e = Ok g ->
     exists fd td : datetime,
       g = Backend_fetch self (default CATEGORY_FUNCTEST category)
             {[ "from_date" := Some fd; "to_date" := Some td ]}
       /\ is_utc fd /\ is_utc td
       /\ (from_date = None \/ from_date = Some None -> fd = DEFAULT_DATETIME)
       /\ (forall d, from_date = Some (Some d) -> datetime_to_utc d = Ok fd)
       /\ (to_date = None \/ to_date = Some None -> td = datetime_utcnow (world e))
       /\ (forall d, to_date = Some (Some d) -> datetime_to_utc d = Ok td))
  /\ ((from_date = None \/ from_date = Some None) ->
      (to_date = None \/ to_date = Some None) ->
      fetch self category from_date to_date e =
        Ok (Backend_fetch self (default CATEGORY_FUNCTEST category)
              {[ "from_date" := Some DEFAULT_DATETIME;
                 "to_date" := Some (datetime_utcnow (world e)) ]}))
  /\ (forall fd td : datetime,
        ((from_date = None \/ from_date = Some None) /\ fd = DEFAULT_DATETIME
         \/ exists d, from_date = Some (Some d) /\ datetime_to_utc d = Ok fd) ->
        ((to_date = None \/ to_date = Some None)
           /\ td = datetime_utcnow (world e)
         \/ exists d, to_date = Some (Some d) /\ datetime_to_utc d = Ok td) ->
        fetch self category from_date to_date e =
          Ok (Backend_fetch self (default CATEGORY_FUNCTEST category)
                {[ "from_date" := Some fd; "to_date" := Some td ]})
        /\ is_utc fd /\ is_utc td)
  /\ (forall d x, from_date = Some (Some d) -> datetime_to_utc d = Err x ->
        fetch self category from_date to_date e = Err x)
  /\ (forall d x, to_date = Some (Some d) -> datetime_to_utc d = Err x ->
        (from_date = None \/ from_date = Some None
         \/ exists d' fd, from_date = Some (Some d')
                           /\ datetime_to_utc d' = Ok fd) ->
        fetch self category from_date to_date e = Err x).
Proof.
  pose proof (datetime_to_utc_fixed _ DEFAULT_DATETIME_utc) as Hdef.
  split; [| split; [| split; [| split]]].
  - intros g. unfold fetch.
    intros E. apply rbind_ok in E as (fd & Ef & E).
    apply rbind_ok in E as (td & Et & E). injection E as <-.
    exists fd, td. split; [reflexivity |].
    assert (Hfd : is_utc fd).
    { destruct from_date as [[d|]|]; simpl in Ef.
      - eapply datetime_to_utc_utc; eassumption.
      - injection Ef as <-. apply DEFAULT_DATETIME_utc.
      - eapply datetime_to_utc_utc; eassumption. }
    assert (Htd : is_utc td).
    { destruct to_date as [[d|]|]; simpl in Et.
      - eapply datetime_to_utc_utc; eassumption.
      - injection Et as <-. apply datetime_utcnow_utc.
      - injection Et as <-. apply datetime_utcnow_utc. }
    repeat split; try assumption.
    + intros [-> | ->]; simpl in Ef; congruence.
    + intros d ->. exact Ef.
    + intros [-> | ->]; simpl in Et; congruence.
    + intros d ->. exact Et.
  - intros [-> | ->] [-> | ->]; unfold fetch; simpl; rewrite ?Hdef; reflexivity.
  - intros fd td Hf Ht.
    assert (Ef : match default (Some DEFAULT_DATETIME) from_date with
                 | Some d => datetime_to_utc d
                 | None => Ok DEFAULT_DATETIME
                 end = Ok fd).
    { destruct Hf as [[[-> | ->] ->] | (d & -> & Ed)]; simpl;
        [exact Hdef | reflexivity | exact Ed]. }
    assert (Et : match default None to_date with
                 | Some d => datetime_to_utc d
                 | None => Ok (datetime_utcnow (world e))
                 end = Ok td).
    { destruct Ht as [[[-> | ->] ->] | (d & -> & Ed)]; simpl;
        [reflexivity | reflexivity | exact Ed]. }
    split; [unfold fetch; rewrite Ef; simpl; rewrite Et; reflexivity |].
    split.
    + destruct Hf as [[_ ->] | (d & _ & Ed)];
        [apply DEFAULT_DATETIME_utc | eapply datetime_to_utc_utc; exact Ed].
    + destruct Ht as [[_ ->] | (d & _ & Ed)];
        [apply datetime_utcnow_utc | eapply datetime_to_utc_utc; exact Ed].
  - intros d x -> Ed. unfold fetch. simpl. rewrite Ed. reflexivity.
  - intros d x -> Ed Hf. unfold fetch.
    destruct Hf as [-> | [-> | (d' & fd & -> & Ed')]]; simpl;
      rewrite ?Hdef, ?Ed'; simpl; rewrite Ed; reflexivity.
Qed.

(** ** Paging *)

Lemma results_advance_envelope (params : gmap string pyval) (content : string) :
  results_advance params content =
    (do pt <- envelope content;
     do last <- py_ge (fst pt) (snd pt);
     if last : bool then Ok None
     else do next <- py_add (fst pt) 1; Ok (Some (<[ PPAGE := next ]> params))).
Proof.
  unfold results_advance, envelope.
  destruct (json_loads content) as [j|]; simpl; [| reflexivity].
  destruct (getitem j "pagination") as [pg|]; simpl; [| reflexivity].
  destruct (getitem pg "current_page") as [page|]; simpl; [| reflexivity].
  destruct (getitem pg "total_pages") as [total|]; simpl; reflexivity.
Qed.

Lemma results_advance_next (params params' : gmap string pyval) (content : string) :
  results_advance params content = Ok (Some params') ->
  exists page total_pages n,
    envelope content = Ok (page, total_pages)
    /\ num_of page = Some n
    /\ py_ge page total_pages = Ok false
    /\ params' = <[ PPAGE := PInt (n + 1) ]> params.
Proof.
  rewrite results_advance_envelope. intros E.
  apply rbind_ok in E as ([page total] & Eenv & E). simpl in E.
  apply rbind_ok in E as (last & Ege & E).
  destruct last; [discriminate |].
  apply rbind_ok in E as (next & Eadd & E). injection E as <-.
  unfold py_add in Eadd. destruct (num_of page) as [n|] eqn:En; [| discriminate].
  injection Eadd as <-. exists page, total, n. auto.
Qed.

(** The loop breaks whenever Python's [page >= total_pages] holds, for
    integers when [total_pages <= page]. *)
Lemma results_advance_break (params : gmap string pyval) (content : string)
    (page total_pages : pyval) :
  envelope content = Ok (page, total_pages) ->
  py_ge page total_pages = Ok true ->
  results_advance params content = Ok None.
Proof.
  intros E Hge. rewrite results_advance_envelope, E. simpl.
  rewrite Hge. reflexivity.
Qed.

Lemma py_ge_int (a b : Z) : py_ge (PInt a) (PInt b) = Ok (a >=? b).
Proof. reflexivity. Qed.

Lemma results_advance_last (params : gmap string pyval) (content : string)
    (page total_pages : Z) :
  envelope content = Ok (PInt page, PInt total_pages) ->
  page >= total_pages ->
  results_advance params content = Ok None.
Proof.
  intros E Hge. apply (results_advance_break _ _ _ _ E).
  rewrite py_ge_int. f_equal. apply Z.geb_le. lia.
Qed.

Lemma HttpClient_fetch_sent (self : FunctestClient) (u : string)
    (params : gmap string pyval) (e e' : env) (r : result string) :
  HttpClient_fetch self u params e = (r, e') ->
  sent e' = sent e ++ [{| method := GET; uri := u; payload := params |}]
  /\ logged e' = logged e.
Proof.
  unfold HttpClient_fetch. destruct (http_fetch _ _ _) as [r0 w].
  intros [= <- <-]. simpl. auto.
Qed.

(** What one request of the loop can give. *)
Lemma results_request_cases (self : FunctestClient)
    (params : gmap string pyval) (e : env) :
  exists e', sent e' = sent e ++ [get_request self params]
    /\ logged e' = logged e
    /\ ((exists content,
           results_request self params e =
             (Yield content, RYielded self params content, e'))
        \/ (exists x, results_request self params e = (Raise x, RClosed, e'))).
Proof.
  unfold results_request.
  destruct (HttpClient_fetch self _ params e) as [r e'] eqn:E.
  apply HttpClient_fetch_sent in E as [Es El].
  exists e'. split; [exact Es | split; [exact El |]].
  destruct r; eauto.
Qed.

(** The trace of a run that starts after a page was yielded. *)
Lemma run_results_chain_from (fuel : nat) :
  forall (self : FunctestClient) (params : gmap string pyval) (content : string)
    (e e' : env) (pages : list string) (st : status) (g' : results_gen),
  run results_next fuel (RYielded self params content) e = (pages, st, g', e') ->
  exists reqs,
    sent e' = sent e ++ reqs
    /\ page_chain self params (content :: pages) (get_request self params :: reqs).
Proof.
  induction fuel as [|fuel IH]; intros self params content e e' pages st g' R.
  - injection R as <- <- <- <-. exists [].
    rewrite app_nil_r. split; [reflexivity | constructor].
  - simpl in R.
    destruct (results_advance params content) as [[params'|]|x] eqn:A.
    + destruct (results_advance_next _ _ _ A) as (page & total & n & Eenv & En & _ & ->).
      destruct (results_request_cases self (<[PPAGE:=PInt (n + 1)]> params) e)
        as (e1 & Es & _ & [[c Q] | [x Q]]); rewrite Q in R.
      * destruct (run results_next fuel _ e1) as [[[l st1] g1] e2] eqn:R1.
        injection R as <- <- <- <-.
        apply IH in R1 as (reqs & Es2 & Hc).
        exists (get_request self (<[PPAGE:=PInt (n + 1)]> params) :: reqs).
        split.
        -- rewrite Es2, Es, <- app_assoc. reflexivity.
        -- econstructor; eassumption.
      * injection R as <- <- <- <-.
        exists [get_request self (<[PPAGE:=PInt (n + 1)]> params)].
        split; [exact Es |].
        econstructor; [eassumption | eassumption | constructor].
    + injection R as <- <- <- <-. exists [].
      rewrite app_nil_r. split; [reflexivity | constructor].
    + injection R as <- <- <- <-. exists [].
      rewrite app_nil_r. split; [reflexivity | constructor].
Qed.

(** The trace of a run of [results]. *)
Lemma run_results_chain (fuel : nat) (self : FunctestClient)
    (from_date : datetime) (to_date : option datetime) (e e' : env)
    (pages : list string) (st : status) (g' : results_gen) :
  run results_next fuel (results self (Some from_date) to_date) e
    = (pages, st, g', e') ->
  exists reqs,
    sent e' = sent e ++ reqs
    /\ requests_since e e' = reqs
    /\ page_chain self (initial_params from_date to_date) pages reqs.
Proof.
  intros R.
  assert (exists reqs, sent e' = sent e ++ reqs
            /\ page_chain self (initial_params from_date to_date) pages reqs)
    as (reqs & Es & Hc).
  { destruct fuel as [|fuel].
    - injection R as <- <- <- <-. exists []. rewrite app_nil_r.
      split; [reflexivity | constructor].
    - simpl in R.
      destruct (results_request_cases self (initial_params from_date to_date) e)
        as (e1 & Es & _ & [[c Q] | [x Q]]); rewrite Q in R.
      + destruct (run results_next fuel _ e1) as [[[l st1] g1] e2] eqn:R1.
        injection R as <- <- <- <-.
        apply run_results_chain_from in R1 as (reqs & Es2 & Hc).
        exists (get_request self (initial_params from_date to_date) :: reqs).
        split; [| exact Hc].
        rewrite Es2, Es, <- app_assoc. reflexivity.
      + injection R as <- <- <- <-.
        exists [get_request self (initial_params from_date to_date)].
        split; [exact Es | constructor]. }
  exists reqs. split; [exact Es | split; [| exact Hc]].
  unfold requests_since. rewrite Es. apply drop_app_length.
Qed.

Lemma initial_params_from (from_date : datetime) (to_date : option datetime) :
  initial_params from_date to_date !! PFROM_DATE
    = Some (PStr (strftime from_date DATE_FORMAT)).
Proof. unfold initial_params. destruct to_date; by simplify_map_eq. Qed.

Lemma initial_params_page (from_date : datetime) (to_date : option datetime) :
  initial_params from_date to_date !! PPAGE = Some (PInt 1).
Proof. unfold initial_params. destruct to_date; by simplify_map_eq. Qed.

Lemma initial_params_to (from_date : datetime) (to_date : option datetime) :
  initial_params from_date to_date !! PTO_DATE
    = (fun d => PStr (strftime d DATE_FORMAT)) <$> to_date.
Proof. unfold initial_params. destruct to_date; by simplify_map_eq. Qed.

Lemma initial_params_dom (from_date : datetime) (to_date : option datetime) :
  dom (initial_params from_date to_date)
    = ({[ PFROM_DATE; PPAGE ]} ∪ match to_date with Some _ => {[ PTO_DATE ]} | None => ∅ end : gset string).
Proof.
  unfold initial_params.
  destruct to_date; rewrite ?dom_insert_L, ?dom_singleton_L; set_solver.
Qed.

Lemma page_chain_first (self : FunctestClient) (params : gmap string pyval)
    (pages : list string) (reqs : list request) (r : request) :
  page_chain self params pages reqs ->
  reqs !! 0%nat = Some r ->
  r = get_request self params.
Proof. intros Hc. destruct Hc; simpl; congruence. Qed.

(** In a chain, a request that follows a page repeats the request before
    it, with [page] set from that page's envelope. *)
Lemma page_chain_step (self : FunctestClient) (params : gmap string pyval)
    (pages : list string) (reqs : list request) :
  page_chain self params pages reqs ->
  forall (i : nat) (content : string) (r r' : request),
    pages !! i = Some content ->
    reqs !! i = Some r ->
    reqs !! S i = Some r' ->
    exists page total_pages n,
      envelope content = Ok (page, total_pages)
      /\ num_of page = Some n
      /\ r' = get_request self (<[ PPAGE := PInt (n + 1) ]> (payload r)).
Proof.
  induction 1 as [p | p | p c | p c page total n pages reqs Eenv En Hc IH];
    intros i content r r' Hp Hr Hr'; try (destruct i; simpl in *; discriminate).
  destruct i as [|i]; simpl in Hp, Hr, Hr'.
  - injection Hp as <-. injection Hr as <-.
    apply (page_chain_first _ _ _ _ _ Hc) in Hr' as ->.
    exists page, total, n. auto.
  - eapply IH; eassumption.
Qed.

(** In a chain, every request is a GET of the results resource whose
    parameters are the first ones, up to [page]. *)
Lemma page_chain_frame (self : FunctestClient) (params : gmap string pyval)
    (pages : list string) (reqs : list request) :
  page_chain self params pages reqs ->
  forall r, r ∈ reqs ->
    r = get_request self params
    \/ exists n, r = get_request self (<[ PPAGE := PInt n ]> params).
Proof.
  induction 1 as [p | p | p c | p c page total n pages reqs Eenv En Hc IH];
    intros r Hin.
  - by apply elem_of_nil in Hin.
  - apply list_elem_of_singleton in Hin. auto.
  - apply list_elem_of_singleton in Hin. auto.
  - apply elem_of_cons in Hin as [-> | Hin]; [auto |].
    right. destruct (IH r Hin) as [-> | [m ->]].
    + eauto.
    + exists m. by rewrite insert_insert_eq.
Qed.

(** The requests of a run of [results]: each is a GET of the results
    resource with the initial parameters, [page] apart. *)
Lemma run_results_requests (fuel : nat) (self : FunctestClient)
    (from_date : datetime) (to_date : option datetime) (e e' : env)
    (pages : list string) (st : status) (g' : results_gen) (r : request) :
  run results_next fuel (results self (Some from_date) to_date) e
    = (pages, st, g', e') ->
  r ∈ requests_since e e' ->
  exists n, r = get_request self (<[ PPAGE := PInt n ]> (initial_params from_date to_date)).
Proof.
  intros R Hin.
  apply run_results_chain in R as (reqs & _ & Hq & Hc). rewrite Hq in Hin.
  destruct (page_chain_frame _ _ _ _ Hc r Hin) as [-> | [n ->]]; [| eauto].
  exists 1. f_equal. symmetry. apply insert_id, initial_params_page.
Qed.

Lemma results_url_eq (self : FunctestClient) :
  results_url self = (strip "/" (base_url self) ++ "/api/v1/results")%string.
Proof. reflexivity. Qed.

Lemma strftime_DATE_FORMAT (d : datetime) :
  strftime d DATE_FORMAT =
    (string_of_Z (year d) ++ "-" ++ zpad2 (month d) ++ "-" ++ zpad2 (day d) ++ " "
     ++ zpad2 (hour d) ++ ":" ++ zpad2 (minute d) ++ ":" ++ zpad2 (second d))%string.
Proof. reflexivity. Qed.

(** A year of four digits is written with its four digits. *)
Lemma four_digit_years_checked :
  forallb (fun y => String.eqb (string_of_Z y) (zpad4 y)) (seqZ 1000 9000) = true.
Proof. vm_compute. reflexivity. Qed.

Lemma string_of_Z_four_digits (y : Z) :
  1000 <= y <= 9999 -> string_of_Z y = zpad4 y.
Proof.
  intros Hy. apply String.eqb_eq.
  apply (proj1 (forallb_forall _ _) four_digit_years_checked).
  apply list_elem_of_In, elem_of_seqZ. lia.
Qed.

Lemma strftime_four_digit_year (d : datetime) :
  1000 <= year d <= 9999 ->
  strftime d DATE_FORMAT =
    (zpad4 (year d) ++ "-" ++ zpad2 (month d) ++ "-" ++ zpad2 (day d) ++ " "
     ++ zpad2 (hour d) ++ ":" ++ zpad2 (minute d) ++ ":" ++ zpad2 (second d))%string
  /\ String.length (strftime d DATE_FORMAT) = 19%nat.
Proof.
  intros Hy. rewrite strftime_DATE_FORMAT, (string_of_Z_four_digits _ Hy).
  split; reflexivity.
Qed.

Lemma requests_since_refl (e : env) : requests_since e e = [].
Proof. unfold requests_since. apply drop_all. Qed.

Lemma requests_since_app (e e' : env) (reqs : list request) :
  sent e' = sent e ++ reqs -> requests_since e e' = reqs.
Proof. intros E. unfold requests_since. rewrite E. apply drop_app_length. Qed.

(** One resumption of [results]: a page comes with exactly one request,
    the end with none. *)
Lemma results_next_inv (g g1 : results_gen) (e e1 : env) (sig : signal string) :
  results_next g e = (sig, g1, e1) ->
  match sig with
  | Yield content =>
      (exists self params, g1 = RYielded self params content)
      /\ exists r, sent e1 = sent e ++ [r]
  | Tau => False
  | Stop => g1 = RClosed /\ e1 = e
  | Raise _ => g1 = RClosed
  end.
Proof.
  assert (Hreq : forall self params,
            results_request self params e = (sig, g1, e1) ->
            match sig with
            | Yield content =>
                (exists self params, g1 = RYielded self params content)
                /\ exists r, sent e1 = sent e ++ [r]
            | Tau => False
            | Stop => g1 = RClosed /\ e1 = e
            | Raise _ => g1 = RClosed
            end).
  { intros self params Q.
    destruct (results_request_cases self params e)
      as (e2 & Es & _ & [[c Q'] | [x Q']]); rewrite Q' in Q;
      injection Q as <- <- <-; eauto. }
  destruct g as [self [fd|] td | self params content |]; simpl.
  - apply Hreq.
  - intros [= <- <- <-]. reflexivity.
  - destruct (results_advance params content) as [[params'|]|x].
    + apply Hreq.
    + intros [= <- <- <-]. auto.
    + intros [= <- <- <-]. reflexivity.
  - intros [= <- <- <-]. auto.
Qed.

Lemma run_results_finished (fuel : nat) :
  forall (g g' : results_gen) (e e' : env) (pages : list string),
  run results_next fuel g e = (pages, Finished, g', e') ->
  g' = RClosed
  /\ exists reqs, sent e' = sent e ++ reqs /\ length reqs = length pages.
Proof.
  induction fuel as [|fuel IH]; intros g g' e e' pages R; [discriminate |].
  simpl in R. destruct (results_next g e) as [[sig g1] e1] eqn:N.
  apply results_next_inv in N. destruct sig as [c| | |x].
  - destruct N as [_ [r Es]].
    destruct (run results_next fuel g1 e1) as [[[l st1] g2] e2] eqn:R1.
    injection R as <- -> <- <-.
    apply IH in R1 as [-> (reqs & Es2 & Hlen)]. split; [reflexivity |].
    exists (r :: reqs). rewrite Es2, Es, <- app_assoc. simpl. auto.
  - destruct N.
  - destruct N as [-> ->]. injection R as <- <- <-.
    split; [reflexivity |]. exists []. by rewrite app_nil_r.
  - discriminate.
Qed.

Lemma run_results_last_page (fuel : nat) :
  forall (g g' : results_gen) (e e' : env) (pages : list string) (st : status)
    (i : nat) (content : string) (page total_pages : Z),
  run results_next fuel g e = (pages, st, g', e') ->
  pages !! i = Some content ->
  envelope content = Ok (PInt page, PInt total_pages) ->
  page >= total_pages ->
  (S i < fuel)%nat ->
  length pages = S i /\ st = Finished.
Proof.
  induction fuel as [|fuel IH];
    intros g g' e e' pages st i content page total R Hi Eenv Hge Hfuel; [lia |].
  simpl in R. destruct (results_next g e) as [[sig g1] e1] eqn:N.
  apply results_next_inv in N. destruct sig as [c| | |x].
  - destruct N as [(self & params & ->) _].
    destruct (run results_next fuel _ e1) as [[[l st1] g2] e2] eqn:R1.
    injection R as <- <- <- <-.
    destruct i as [|i]; simpl in Hi.
    + injection Hi as ->.
      destruct fuel as [|fuel]; [lia |]. simpl in R1.
      rewrite (results_advance_last _ _ _ _ Eenv Hge) in R1.
      injection R1 as <- <- <- <-. auto.
    + destruct (IH _ _ _ _ _ _ _ _ _ _ R1 Hi Eenv Hge) as [Hl ->]; [lia |].
      simpl. auto.
  - destruct N.
  - injection R as <- <- <- <-. discriminate.
  - injection R as <- <- <- <-. discriminate.
Qed.

(** C2. When a page of a run reports [current_page >= total_pages], it is
    the last one the run yields: the iteration then ends normally, and as
    many requests were made as pages came back, none after that page.
    Resuming [results] after such a page ends it without touching the
    transport, equality of the two numbers included. *)
Theorem results_ends_at_last_page (fuel : nat) (self : FunctestClient)
    (from_date to_date : option datetime) (e e' : env) (pages : list string)
    (st : status) (g' : results_gen) (i : nat) (content : string)
    (page total_pages : Z) :
  run results_next fuel (results self from_date to_date) e
    = (pages, st, g', e') ->
  pages !! i = Some content ->
  envelope content = Ok (PInt page, PInt total_pages) ->
  page >= total_pages ->
  (S i < fuel)%nat ->
  length pages = S i
  /\ st = Finished
  /\ g' = RClosed
  /\ length (requests_since e e') = S i
  /\ (forall self' params e0,
        results_next (RYielded self' params content) e0 = (Stop, RClosed, e0)).
Proof.
  intros R Hi Eenv Hge Hfuel.
  destruct (run_results_last_page _ _ _ _ _ _ _ _ _ _ _ R Hi Eenv Hge Hfuel)
    as [Hlen ->].
  destruct (run_results_finished _ _ _ _ _ _ R) as [-> (reqs & Es & Hreq)].
  rewrite (requests_since_app _ _ _ Es).
  repeat split; try congruence.
  intros self' params e0. simpl.
  by rewrite (results_advance_last _ _ _ _ Eenv Hge).
Qed.

(** C3, as amended. The first request of a run carries [page = 1]; a
    request that follows a page repeats the one before it with [page] set
    to the [current_page] that page reported plus 1.  So when every page
    reports the number of the request that fetched it, request [n+1]
    carries [page = n+1]. *)
Theorem results_page_follows_response (fuel : nat) (self : FunctestClient)
    (from_date : datetime) (to_date : option datetime) (e e' : env)
    (pages : list string) (st : status) (g' : results_gen) :
  run results_next fuel (results self (Some from_date) to_date) e
    = (pages, st, g', e') ->
  (forall r, requests_since e e' !! 0%nat = Some r ->
     payload r !! PPAGE = Some (PInt 1))
  /\ (forall (i : nat) content r r',
        pages !! i = Some content ->
        requests_since e e' !! i = Some r ->
        requests_since e e' !! S i = Some r' ->
        exists page total_pages n,
          envelope content = Ok (page, total_pages)
          /\ num_of page = Some n
          /\ payload r' = <[ PPAGE := PInt (n + 1) ]> (payload r))
  /\ ((forall (i : nat) content, pages !! i = Some content ->
         exists total_pages,
           envelope content = Ok (PInt (Z.of_nat i + 1), total_pages)) ->
      forall (i : nat) r, requests_since e e' !! i = Some r ->
        payload r !! PPAGE = Some (PInt (Z.of_nat i + 1))).
Proof.
  intros R. apply run_results_chain in R as (reqs & _ & -> & Hc).
  assert (Hfirst : forall r, reqs !! 0%nat = Some r ->
            payload r !! PPAGE = Some (PInt 1)).
  { intros r Hr. apply (page_chain_first _ _ _ _ _ Hc) in Hr as ->.
    apply initial_params_page. }
  assert (Hstep : forall (i : nat) content r r',
            pages !! i = Some content -> reqs !! i = Some r ->
            reqs !! S i = Some r' ->
            exists page total_pages n,
              envelope content = Ok (page, total_pages)
              /\ num_of page = Some n
              /\ payload r' = <[ PPAGE := PInt (n + 1) ]> (payload r)).
  { intros i content r r' Hp Hr Hr'.
    destruct (page_chain_step _ _ _ _ Hc i content r r' Hp Hr Hr')
      as (page & total & n & Eenv & En & ->).
    exists page, total, n. auto. }
  split; [exact Hfirst | split; [exact Hstep |]].
  intros Hecho i. induction i as [|i IH]; intros r Hr.
  - apply Hfirst. exact Hr.
  - destruct (reqs !! i) as [r0|] eqn:Hr0.
    2:{ apply lookup_ge_None in Hr0. apply lookup_lt_Some in Hr. lia. }
    destruct (pages !! i) as [content|] eqn:Hp.
    + destruct (Hstep i content r0 r Hp Hr0 Hr) as (page & total & n & Eenv & En & ->).
      destruct (Hecho i content Hp) as [total' Eenv'].
      rewrite Eenv' in Eenv. injection Eenv as <- <-. injection En as <-.
      rewrite lookup_insert_eq. do 2 f_equal. lia.
    + exfalso. clear -Hc Hp Hr. revert i Hp Hr.
      induction Hc as [p | p | p c | p c page total n pages reqs Eenv En Hc IHc];
        intros i Hp Hr; try (destruct i; simpl in *; discriminate).
      destruct i as [|i]; simpl in Hp, Hr; [discriminate |].
      eapply IHc; eassumption.
Qed.

Lemma run_results_no_from_date (fuel : nat) (self : FunctestClient)
    (to_date : option datetime) (e e' : env) (pages : list string)
    (st : status) (g' : results_gen) :
  run results_next fuel (results self None to_date) e = (pages, st, g', e') ->
  requests_since e e' = [].
Proof.
  destruct fuel; simpl; intros [= <- <- <- <-]; apply requests_since_refl.
Qed.

Lemma results_advance_frame (params params' : gmap string pyval)
    (content : string) (key : string) :
  results_advance params content = Ok (Some params') ->
  key <> PPAGE ->
  params' !! key = params !! key.
Proof.
  intros A Hk. apply results_advance_next in A as (? & ? & n & _ & _ & _ & ->).
  by apply lookup_insert_ne.
Qed.

(** C7. Every request a run of [results] makes is a GET of
    [<base_url>/api/v1/results] (the slashes around the base URL dropped)
    whose parameters are [from], the start of the window written by
    [strftime] with [DATE_FORMAT], an integer [page], and [to], written
    the same way, exactly when an end of the window was given; nothing
    else.  For a date whose year has four digits the text is the nineteen
    characters [YYYY-MM-DD HH:MM:SS]. *)
Theorem results_request_shape (fuel : nat) (self : FunctestClient)
    (from_date to_date : option datetime) (e e' : env) (pages : list string)
    (st : status) (g' : results_gen) (r : request) :
  run results_next fuel (results self from_date to_date) e
    = (pages, st, g', e') ->
  r ∈ requests_since e e' ->
  exists fd,
    from_date = Some fd
    /\ method r = GET
    /\ uri r = (strip "/" (base_url self) ++ "/api/v1/results")%string
    /\ payload r !! PFROM_DATE = Some (PStr (strftime fd DATE_FORMAT))
    /\ (exists n, payload r !! PPAGE = Some (PInt n))
    /\ payload r !! PTO_DATE = (fun d => PStr (strftime d DATE_FORMAT)) <$> to_date
    /\ dom (payload r)
         = ({[ PFROM_DATE; PPAGE ]}
            ∪ match to_date with Some _ => {[ PTO_DATE ]} | None => ∅ end : gset string)
    /\ (forall d,
          strftime d DATE_FORMAT =
            (string_of_Z (year d) ++ "-" ++ zpad2 (month d) ++ "-"
             ++ zpad2 (day d) ++ " " ++ zpad2 (hour d) ++ ":"
             ++ zpad2 (minute d) ++ ":" ++ zpad2 (second d))%string
          /\ (1000 <= year d <= 9999 ->
              strftime d DATE_FORMAT =
                (zpad4 (year d) ++ "-" ++ zpad2 (month d) ++ "-"
                 ++ zpad2 (day d) ++ " " ++ zpad2 (hour d) ++ ":"
                 ++ zpad2 (minute d) ++ ":" ++ zpad2 (second d))%string
              /\ String.length (strftime d DATE_FORMAT) = 19%nat)).
Proof.
  intros R Hin. destruct from_date as [fd|].
  2:{ apply run_results_no_from_date in R. rewrite R in Hin.
      by apply elem_of_nil in Hin. }
  exists fd. split; [reflexivity |].
  destruct (run_results_requests _ _ _ _ _ _ _ _ _ _ R Hin) as [n ->]. simpl.
  split; [reflexivity |]. split; [apply results_url_eq |].
  split; [rewrite lookup_insert_ne by done; apply initial_params_from |].
  split; [exists n; apply lookup_insert_eq |].
  split; [rewrite lookup_insert_ne by done; apply initial_params_to |].
  split; [| intros d; split;
              [apply strftime_DATE_FORMAT | apply strftime_four_digit_year]].
  rewrite dom_insert_L, initial_params_dom.
  apply set_eq. intros key. rewrite !elem_of_union, !elem_of_singleton. tauto.
Qed.

(** C10. Within one run of [results] the date window does not change:
    any two requests agree on [from], on [to], and on every parameter
    other than [page]; the tail of the loop changes no other entry. *)
Theorem results_window_is_fixed (fuel : nat) (self : FunctestClient)
    (from_date to_date : option datetime) (e e' : env) (pages : list string)
    (st : status) (g' : results_gen) (r1 r2 : request) :
  run results_next fuel (results self from_date to_date) e
    = (pages, st, g', e') ->
  r1 ∈ requests_since e e' ->
  r2 ∈ requests_since e e' ->
  payload r1 !! PFROM_DATE = payload r2 !! PFROM_DATE
  /\ payload r1 !! PTO_DATE = payload r2 !! PTO_DATE
  /\ (forall key, key <> PPAGE -> payload r1 !! key = payload r2 !! key)
  /\ (forall params params' content key,
        results_advance params content = Ok (Some params') ->
        key <> PPAGE -> params' !! key = params !! key).
Proof.
  intros R Hin1 Hin2. destruct from_date as [fd|].
  2:{ apply run_results_no_from_date in R. rewrite R in Hin1.
      by apply elem_of_nil in Hin1. }
  destruct (run_results_requests _ _ _ _ _ _ _ _ _ _ R Hin1) as [n1 ->].
  destruct (run_results_requests _ _ _ _ _ _ _ _ _ _ R Hin2) as [n2 ->].
  simpl.
  assert (Hk : forall key, key <> PPAGE ->
            <[PPAGE:=PInt n1]> (initial_params fd to_date) !! key
            = <[PPAGE:=PInt n2]> (initial_params fd to_date) !! key).
  { intros key Hk. by rewrite !lookup_insert_ne. }
  split; [by apply Hk |]. split; [by apply Hk |]. split; [exact Hk |].
  intros params params' content key. apply results_advance_frame.
Qed.

(** ** Items *)

(** A run that has ended gives the same result with more fuel. *)
Lemma run_more_fuel {G A : Type} (next : G -> env -> signal A * G * env)
    (fuel : nat) :
  forall (g g' : G) (e e' : env) (l : list A) (st : status),
  run next fuel g e = (l, st, g', e') ->
  st <> Pending ->
  forall k, (fuel <= k)%nat -> run next k g e = (l, st, g', e').
Proof.
  induction fuel as [|fuel IH]; intros g g' e e' l st R Hst k Hk.
  - injection R as <- <- <- <-. congruence.
  - destruct k as [|k]; [lia |]. simpl in *.
    destruct (next g e) as [[[a| | |x] g1] e1]; try exact R.
    + destruct (run next fuel g1 e1) as [[[l1 st1] g2] e2] eqn:R1.
      injection R as <- <- <- <-.
      rewrite (IH _ _ _ _ _ _ R1 Hst k) by lia. reflexivity.
    + apply (IH _ _ _ _ _ _ R Hst). lia.
Qed.

Lemma length_concat_sum {A : Type} (ls : list (list A)) :
  length (concat ls) = sum_list (length <$> ls).
Proof.
  induction ls as [|l ls IH]; simpl; [reflexivity |].
  rewrite length_app, IH. reflexivity.
Qed.

(** [results] does not read or write the journal of [logger.info]. *)
Lemma results_next_same_io (g g1 : results_gen) (e e1 f : env)
    (sig : signal string) :
  world f = world e -> sent f = sent e ->
  results_next g e = (sig, g1, e1) ->
  exists f1,
    results_next g f = (sig, g1, f1)
    /\ world f1 = world e1 /\ sent f1 = sent e1 /\ logged f1 = logged f.
Proof.
  intros Hw Hs.
  assert (Hreq : forall self params,
            results_request self params e = (sig, g1, e1) ->
            exists f1,
              results_request self params f = (sig, g1, f1)
              /\ world f1 = world e1 /\ sent f1 = sent e1 /\ logged f1 = logged f).
  { intros self params. unfold results_request, HttpClient_fetch.
    rewrite Hw, Hs. destruct (http_fetch _ _ _) as [[c|x] w];
      intros [= <- <- <-]; eexists; split; try reflexivity; simpl; auto. }
  destruct g as [self [fd|] td | self params content |]; simpl.
  - apply Hreq.
  - intros [= <- <- <-]. exists f. auto.
  - destruct (results_advance params content) as [[params'|]|x].
    + apply Hreq.
    + intros [= <- <- <-]. exists f. auto.
    + intros [= <- <- <-]. exists f. auto.
  - intros [= <- <- <-]. exists f. auto.
Qed.

(** The inner loop yields the elements left, in order, and counts them. *)
Lemma run_fetch_items_inner (parsed_data : list pyval) :
  forall (k : nat) (pages : results_gen) (ndata : Z) (e : env),
  run fetch_items_next (length parsed_data + 1 + k)
      (FYielded pages parsed_data ndata) e
  = let '(l, st, g, e') :=
      run fetch_items_next k
          (FPages pages (ndata + 1 + Z.of_nat (length parsed_data))) e in
    (parsed_data ++ l, st, g, e').
Proof.
  induction parsed_data as [|x rest IH]; intros k pages ndata e.
  - simpl. rewrite Z.add_0_r.
    destruct (run fetch_items_next k (FPages pages (ndata + 1)) e)
      as [[[l st] g] e'].
    reflexivity.
  - cbn [length Nat.add run fetch_items_next fetch_items_inner]. rewrite IH.
    replace (ndata + 1 + 1 + Z.of_nat (length rest))
      with (ndata + 1 + Z.of_nat (S (length rest))) by lia.
    destruct (run fetch_items_next k _ e) as [[[l st] g] e'].
    reflexivity.
Qed.

(** The outer loop, against the run of [results] it consumes. *)
Lemma run_fetch_items_pages (fuel : nat) :
  forall (g g' : results_gen) (e e' f : env) (pages : list string)
    (st : status) (parsed : list (list pyval)) (ndata : Z),
  run results_next fuel g e = (pages, st, g', e') ->
  st <> Pending ->
  Forall2 (fun raw items => parse_json raw = Ok (PList items)) pages parsed ->
  world f = world e -> sent f = sent e ->
  exists fuel' f',
    run fetch_items_next fuel' (FPages g ndata) f
      = (concat parsed, st, FClosed, f')
    /\ world f' = world e' /\ sent f' = sent e'
    /\ logged f' = logged f ++
         match st with
         | Finished => [LogCompleted (ndata + Z.of_nat (length (concat parsed)))]
         | _ => []
         end.
Proof.
  induction fuel as [|fuel IH];
    intros g g' e e' f pages st parsed ndata R Hst HP Hw Hs.
  - injection R as <- <- <- <-. congruence.
  - simpl in R. destruct (results_next g e) as [[sig g1] e1] eqn:N.
    pose proof (results_next_inv _ _ _ _ _ N) as Hinv.
    destruct (results_next_same_io _ _ _ _ f _ Hw Hs N)
      as (f1 & Nf & Hw1 & Hs1 & Hl1).
    destruct sig as [c| | |x].
    + destruct (run results_next fuel g1 e1) as [[[l st1] g2] e2] eqn:R1.
      injection R as <- <- <- <-.
      apply Forall2_cons_inv_l in HP as (items & parsed' & Hc & HP & ->).
      destruct (IH _ _ _ _ f1 _ _ _ (ndata + Z.of_nat (length items)) R1 Hst HP Hw1 Hs1)
        as (fuel1 & f2 & Rf & Hw2 & Hs2 & Hl2).
      exists (S (length items + fuel1)), f2.
      assert (Hrun : run fetch_items_next (S (length items + fuel1))
                       (FPages g ndata) f
                     = (items ++ concat parsed', st1, FClosed, f2)).
      { destruct items as [|x rest].
        - cbn [run fetch_items_next length Nat.add]. rewrite Nf, Hc.
          cbn [rbind py_iter fetch_items_inner app].
          rewrite Z.add_0_r in Rf. exact Rf.
        - replace (S (length (x :: rest) + fuel1))
            with (S (length rest + 1 + fuel1)) by (simpl; lia).
          cbn [run fetch_items_next]. rewrite Nf, Hc.
          cbn [rbind py_iter fetch_items_inner]. rewrite run_fetch_items_inner.
          replace (ndata + 1 + Z.of_nat (length rest))
            with (ndata + Z.of_nat (length (x :: rest))) by (simpl length; lia).
          rewrite Rf. reflexivity. }
      split; [exact Hrun |]. split; [exact Hw2 |]. split; [exact Hs2 |].
      rewrite Hl2, Hl1. f_equal. destruct st1; try reflexivity.
      simpl. rewrite length_app. do 2 f_equal. lia.
    + destruct Hinv.
    + injection R as <- <- <- <-. apply Forall2_nil_inv_l in HP as ->.
      exists 1%nat, (logger_info (LogCompleted ndata) f1).
      cbn [run fetch_items_next]. rewrite Nf. simpl.
      rewrite Z.add_0_r, Hl1. auto.
    + injection R as <- <- <- <-. apply Forall2_nil_inv_l in HP as ->.
      exists 1%nat, f1.
      cbn [run fetch_items_next]. rewrite Nf. simpl.
      rewrite app_nil_r. auto.
Qed.

(** C1. When the run of [results] comes to an end and every page it gave
    holds an array under [results], [fetch_items] yields the members of
    these arrays, page after page and in the order of each array, and ends
    as the run of [results] ended, having made the same requests; the
    number of items is the sum of the lengths of the arrays, which is the
    number logged at a normal end. *)
Theorem fetch_items_yields_pages_in_order (fuel : nat) (self : Functest)
    (c : FunctestClient) (category : string)
    (kwargs : gmap string (option datetime))
    (from_date to_date : option datetime) (e e' : env) (pages : list string)
    (st : status) (g' : results_gen) (parsed : list (list pyval)) :
  client self = Some c ->
  kwargs !! "from_date" = Some from_date ->
  kwargs !! "to_date" = Some to_date ->
  run results_next fuel (results c from_date to_date) e = (pages, st, g', e') ->
  st <> Pending ->
  Forall2 (fun raw items => parse_json raw = Ok (PList items)) pages parsed ->
  exists fuel' f',
    (forall k, (fuel' <= k)%nat ->
       run fetch_items_next k (fetch_items self category kwargs) e
         = (concat parsed, st, FClosed, f'))
    /\ world f' = world e' /\ sent f' = sent e'
    /\ length (concat parsed) = sum_list (length <$> parsed)
    /\ (st = Finished ->
        last (logged f') = Some (LogCompleted (Z.of_nat (length (concat parsed))))).
Proof.
  intros Hc Hfrom Hto R Hst HP.
  set (f := logger_info (LogFetching (url self) from_date to_date) e).
  destruct (run_fetch_items_pages _ _ _ _ _ f _ _ _ 0 R Hst HP eq_refl eq_refl)
    as (fuel1 & f' & Rf & Hw & Hs & Hl).
  exists (S fuel1), f'.
  split.
  - apply run_more_fuel; [| exact Hst].
    cbn [run fetch_items fetch_items_next]. unfold fetch_items_start, kwarg.
    rewrite Hfrom, Hto, Hc. exact Rf.
  - split; [exact Hw |]. split; [exact Hs |].
    split; [apply length_concat_sum |].
    intros ->. rewrite Hl, last_snoc. reflexivity.
Qed.

(** ** Errors *)

Lemma metadata_fails (item : pyval) :
  (exists x, getitem item "_id" = Err x)
  \/ (exists x, getitem item "start_date" = Err x)
  \/ (exists v x, getitem item "start_date" = Ok v /\ str_to_datetime v = Err x) ->
  exists x, metadata item = Err x.
Proof.
  unfold metadata, metadata_id, metadata_updated_on.
  intros [[x E] | [[x E] | (v & x & E & P)]].
  - rewrite E. simpl. eauto.
  - destruct (getitem item "_id"); simpl; [| eauto]. rewrite E. simpl. eauto.
  - destruct (getitem item "_id"); simpl; [| eauto].
    rewrite E. simpl. rewrite P. simpl. eauto.
Qed.

(** The driver follows [fetch_items] step for step up to the first record
    whose extraction fails, and ends there. *)
Lemma run_driver_until_bad (self : Functest) (bad : pyval) (rest : list pyval)
    (x : exn) (fuel : nat) :
  forall (items g' : fetch_items_gen) (e e' : env) (good : list pyval)
    (out : list normalized_item) (st : status),
  run fetch_items_next fuel items e = (good ++ bad :: rest, st, g', e') ->
  Forall2 (fun r it => metadata r = Ok it) good out ->
  metadata bad = Err x ->
  exists e'',
    run Backend_fetch_next fuel (BItems self items) e
      = (out, Failed x, BClosed, e'').
Proof.
  induction fuel as [|fuel IH]; intros items g' e e' good out st R Hgood Hbad.
  - injection R as R _ _ _. by destruct good.
  - simpl in R. cbn [run Backend_fetch_next].
    destruct (fetch_items_next items e) as [[[r| | |y] g1] e1].
    + destruct (run fetch_items_next fuel g1 e1) as [[[l st1] g2] e2] eqn:R1.
      injection R as R <- <- <-.
      destruct Hgood as [|r0 it good out Hr0 Hgood]; simpl in R.
      * injection R as -> ->. rewrite Hbad. eauto.
      * injection R as -> ->. rewrite Hr0.
        destruct (IH _ _ _ _ _ _ _ R1 Hgood Hbad) as [e'' ->]. eauto.
    + eapply IH; eassumption.
    + injection R as R _ _ _. by destruct good.
    + injection R as R _ _ _. by destruct good.
Qed.

(** C8. When a record of a call lacks [_id] or [start_date], or its
    [start_date] does not parse, the extraction raises (a [KeyError]
    naming the field a dict lacks), and the call ends with that error: the
    items produced are those of the records before it, one for each, none
    for the record itself and none after it. *)
Theorem bad_record_is_fatal (fuel : nat) (self : Functest)
    (items g' : fetch_items_gen) (e e' : env) (good rest : list pyval)
    (bad : pyval) (out : list normalized_item) (st : status) :
  run fetch_items_next fuel items e = (good ++ bad :: rest, st, g', e') ->
  Forall2 (fun r it => metadata r = Ok it) good out ->
  (exists x, getitem bad "_id" = Err x)
  \/ (exists x, getitem bad "start_date" = Err x)
  \/ (exists v x, getitem bad "start_date" = Ok v /\ str_to_datetime v = Err x) ->
  exists x e'',
    metadata bad = Err x
    /\ (forall k, (fuel <= k)%nat ->
          run Backend_fetch_next k (BItems self items) e
            = (out, Failed x, BClosed, e''))
    /\ Backend_fetch_next BClosed e'' = (Stop, BClosed, e'')
    /\ (forall d, bad = PDict d -> dict_get d "_id" = None -> x = KeyError "_id")
    /\ (forall d, bad = PDict d -> dict_get d "_id" <> None ->
          dict_get d "start_date" = None -> x = KeyError "start_date").
Proof.
  intros R Hgood Hlack.
  destruct (metadata_fails bad Hlack) as [x Hbad].
  destruct (run_driver_until_bad self _ _ _ _ _ _ _ _ _ _ _ R Hgood Hbad)
    as [e'' Rd].
  exists x, e''. split; [exact Hbad |].
  split; [intros k Hk; eapply run_more_fuel; [exact Rd | discriminate | exact Hk] |].
  split; [reflexivity |].
  split.
  - intros d -> Hid. unfold metadata, metadata_id in Hbad. simpl in Hbad.
    rewrite Hid in Hbad. simpl in Hbad. congruence.
  - intros d -> Hid Hsd.
    unfold metadata, metadata_id, metadata_updated_on in Hbad. simpl in Hbad.
    destruct (dict_get d "_id"); [| congruence]. simpl in Hbad.
    rewrite Hsd in Hbad. simpl in Hbad. congruence.
Qed.

Lemma run_resume {G A : Type} (next : G -> env -> signal A * G * env)
    (k : nat) :
  forall (g g1 : G) (e e1 : env) (out : list A),
  run next k g e = (out, Pending, g1, e1) ->
  forall m,
    run next (k + m) g e
    = let '(l, st, g2, e2) := run next m g1 e1 in (out ++ l, st, g2, e2).
Proof.
  induction k as [|k IH]; intros g g1 e e1 out R m.
  - injection R as <- <- <-. simpl.
    by destruct (run next m g e) as [[[l st] g2] e2].
  - simpl in *. destruct (next g e) as [[[a| | |x] g'] e']; try discriminate.
    + destruct (run next k g' e') as [[[l0 st0] g0] e0] eqn:R0.
      injection R as <- -> <- <-.
      rewrite (IH _ _ _ _ _ R0 m).
      by destruct (run next m g0 e0) as [[[l st] g2] e2].
    + exact (IH _ _ _ _ _ R m).
Qed.

(** C9, as amended. When the next page of a call is not valid JSON, or
    its top-level value is not an object, or it has no [results] key, or
    it holds under [results] a number, a boolean, [null], a string that is
    not empty or an object that is not empty, the call raises at that page
    (the decoder's error, [KeyError] or [TypeError]): whatever was
    produced before, no item is produced from the page and the call is
    over.  With an empty string or an empty object under [results] nothing
    is raised: parsing gives that value, the page has no record, and the
    call goes on with the pages that follow. *)
Theorem malformed_page_aborts (self : Functest) (pages pages' : results_gen)
    (ndata : Z) (e e1 : env) (raw : string) :
  results_next pages e = (Yield raw, pages', e1) ->
  (forall x,
     json_loads raw = Err x
     \/ (exists j, json_loads raw = Ok j /\ (forall d, j <> PDict d) /\ x = TypeError)
     \/ (exists d, json_loads raw = Ok (PDict d)
                   /\ dict_get d "results" = None /\ x = KeyError "results")
     \/ (exists d v, json_loads raw = Ok (PDict d)
                   /\ dict_get d "results" = Some v
                   /\ (v = PNone \/ (exists b, v = PBool b) \/ (exists n, v = PInt n)
                       \/ (exists c s, v = PStr (String c s))
                       \/ (exists kv d', v = PDict (kv :: d')))
                   /\ x = TypeError) ->
     Backend_fetch_next (BItems self (FPages pages ndata)) e
       = (Raise x, BClosed, e1)
     /\ (forall k g0 e0 out,
           run Backend_fetch_next k g0 e0
             = (out, Pending, BItems self (FPages pages ndata), e) ->
           forall fuel,
             run Backend_fetch_next (k + S fuel) g0 e0
               = (out, Failed x, BClosed, e1)))
  /\ (forall d v,
        json_loads raw = Ok (PDict d) ->
        dict_get d "results" = Some v ->
        v = PStr EmptyString \/ v = PDict [] ->
        parse_json raw = Ok v
        /\ Backend_fetch_next (BItems self (FPages pages ndata)) e
             = (Tau, BItems self (FPages pages' ndata), e1)).
Proof.
  intros N. split.
  - intros x Hbad.
    assert (Hstep : Backend_fetch_next (BItems self (FPages pages ndata)) e
                    = (Raise x, BClosed, e1)).
    { cbn [Backend_fetch_next fetch_items_next]. rewrite N. unfold parse_json.
      destruct Hbad as [E | [(j & E & Hj & ->) | [(d & E & Hd & ->) | (d & v & E & Hd & Hv & ->)]]];
        rewrite E; simpl.
      - reflexivity.
      - destruct j; try reflexivity. by destruct (Hj d).
      - rewrite Hd. reflexivity.
      - rewrite Hd. simpl.
        destruct Hv as [-> | [[b ->] | [[n ->] | [(c & s & ->) | (kv & d' & ->)]]]];
          reflexivity. }
    split; [exact Hstep |].
    intros k g0 e0 out R fuel. rewrite (run_resume _ _ _ _ _ _ _ R).
    cbn [run]. rewrite Hstep. by rewrite app_nil_r.
  - intros d v E Hd Hv.
    assert (Hp : parse_json raw = Ok v).
    { unfold parse_json. rewrite E. simpl. by rewrite Hd. }
    split; [exact Hp |].
    cbn [Backend_fetch_next fetch_items_next]. rewrite N, Hp.
    by destruct Hv as [-> | ->].
Qed.

End Properties.

(** * The properties on the sample library and host *)

Section Scenarios.

Import Sample.

Local Open Scope list_scope.

Lemma sample_laws : DateLaws library host.
Proof.
  split.
  - intros d d'. unfold datetime_to_utc, library, to_utc, is_utc.
    destruct (tzinfo d) as [[|p|p]|] eqn:E.
    + intros [= <-]. exact E.
    + destruct (civil_from_days _) as [[y m] dd].
      destruct (_ && _); intros [= <-]; reflexivity.
    + destruct (civil_from_days _) as [[y m] dd].
      destruct (_ && _); intros [= <-]; reflexivity.
    + intros [= <-]. reflexivity.
  - intros d. unfold datetime_to_utc, library, to_utc, is_utc.
    intros ->. reflexivity.
  - reflexivity.
  - intros w. reflexivity.
Qed.

(** The scenarios of the specification, run. *)

Example strftime_epoch : strftime epoch DATE_FORMAT = "1970-01-01 00:00:00".
Proof. reflexivity. Qed.

Example strftime_year_999 : strftime year_999 DATE_FORMAT = "999-01-02 03:04:05".
Proof. reflexivity. Qed.

Example urijoin_results :
  urijoin [functest_url; FUNCTEST_API_PATH; RRESULTS]
  = "http://functest.example/api/v1/results".
Proof. reflexivity. Qed.

Example py_str_values :
  py_str (L:=library) <$> [PInt 1; PInt (-42); PStr "b7"; PNone; PBool true]
  = ["1"; "-42"; "b7"; "None"; "True"].
Proof. reflexivity. Qed.

Example single_page_one_item :
  (do g <- fetch (L:=library) (W:=host) backend None None None single_page;
   Ok (run (Backend_fetch_next (L:=library)) 6 g single_page).1.1)
  = Ok ([item_1], Finished).
Proof. reflexivity. Qed.

Example two_pages_two_requests :
  (fun r => payload r !! PPAGE) <$> requests_since two_pages run_two_pages.2
  = [Some (PInt 1); Some (PInt 2)].
Proof. vm_compute. reflexivity. Qed.

Example unknown_category_is_refused :
  (run (Backend_fetch_next (L:=library)) 3
       (Backend_fetch backend "issue" since_epoch) single_page).1.1.2
  = Failed BackendError.
Proof. vm_compute. reflexivity. Qed.

Lemma metadata_id_is_str_witness :
  getitem record_1 "_id" = Ok (PInt 1)
  /\ metadata_id (L:=library) record_1 = Ok "1"
  /\ metadata_id (L:=library) record_b7 = Ok "b7".
Proof.
  split; [reflexivity |]. split.
  - exact (proj1 (metadata_id_is_str (L:=library) record_1 (PInt 1) eq_refl)).
  - exact (proj1 (metadata_id_is_str (L:=library) record_b7 (PStr "b7") eq_refl)).
Defined.



Lemma fetch_resolves_dates_witness :
  (exists fd td,
     fetch (L:=library) (W:=host) backend None None (Some (Some cet_date))
           (start wall_clock [])
     = Ok (Backend_fetch backend "functest"
             {[ "from_date" := Some fd; "to_date" := Some td ]})
     /\ is_utc fd /\ is_utc td
     /\ fd = epoch
     /\ td = {| year := 2016; month := 12; day := 31; hour := 23; minute := 30;
                second := 0; microsecond := 0; tzinfo := Some 0 |})
  /\ fetch (L:=library) (W:=host) backend None
          (Some (Some cet_date)) (Some (Some mid_june)) (start wall_clock [])
    = Ok (Backend_fetch backend "functest"
            {[ "from_date" :=
                 Some {| year := 2016; month := 12; day := 31; hour := 23;
                         minute := 30; second := 0; microsecond := 0;
                         tzinfo := Some 0 |};
               "to_date" :=
                 Some {| year := 2018; month := 6; day := 15; hour := 0;
                         minute := 0; second := 0; microsecond := 0;
                         tzinfo := Some 0 |} ]})
  /\ fetch (L:=library) (W:=host) backend None
          (Some (Some cet_date)) None (start wall_clock [])
    = Ok (Backend_fetch backend "functest"
            {[ "from_date" :=
                 Some {| year := 2016; month := 12; day := 31; hour := 23;
                         minute := 30; second := 0; microsecond := 0;
                         tzinfo := Some 0 |};
               "to_date" :=
                 Some {| year := 2018; month := 6; day := 15; hour := 9;
                         minute := 5; second := 7; microsecond := 0;
                         tzinfo := Some 0 |} ]})
  /\ fetch (L:=library) (W:=host) backend None (Some None) None
          (start wall_clock [])
    = Ok (Backend_fetch backend "functest"
            {[ "from_date" := Some epoch;
               "to_date" :=
                 Some {| year := 2018; month := 6; day := 15; hour := 9;
                         minute := 5; second := 7; microsecond := 0;
                         tzinfo := Some 0 |} ]}).
Proof.
  split; [| split; [| split]].
  - destruct (proj1 (fetch_resolves_dates sample_laws backend None None
                       (Some (Some cet_date)) (start wall_clock [])) _ eq_refl)
      as (fd & td & Hg & Hufd & Hutd & Hfd & _ & _ & Htd).
    exists fd, td. split; [exact (f_equal Ok Hg) |].
    split; [exact Hufd |]. split; [exact Hutd |].
    split; [exact (Hfd (or_introl eq_refl)) |].
    specialize (Htd _ eq_refl). vm_compute in Htd. by injection Htd as <-.
  - destruct (fetch_resolves_dates sample_laws backend None
                (Some (Some cet_date)) (Some (Some mid_june))
                (start wall_clock [])) as (_ & _ & Hok & _).
    refine (proj1 (Hok {| year := 2016; month := 12; day := 31; hour := 23; minute := 30;
                      second := 0; microsecond := 0; tzinfo := Some 0 |}
                       {| year := 2018; month := 6; day := 15; hour := 0; minute := 0;
                      second := 0; microsecond := 0; tzinfo := Some 0 |} _ _)).
    + right. exists cet_date. split; reflexivity.
    + right. exists mid_june. split; reflexivity.
  - destruct (fetch_resolves_dates sample_laws backend None
                (Some (Some cet_date)) None
                (start wall_clock [])) as (_ & _ & Hok & _).
    refine (proj1 (Hok {| year := 2016; month := 12; day := 31; hour := 23; minute := 30;
                      second := 0; microsecond := 0; tzinfo := Some 0 |}
                       {| year := 2018; month := 6; day := 15; hour := 9; minute := 5;
                      second := 7; microsecond := 0; tzinfo := Some 0 |} _ _)).
    + right. exists cet_date. split; reflexivity.
    + left. split; [left |]; reflexivity.
  - destruct (fetch_resolves_dates sample_laws backend None (Some None) None
                (start wall_clock [])) as (_ & Hnone & _).
    apply Hnone; auto.
Defined.

Lemma run_eta {G A : Type} (t : list A * status * G * @env host) :
  t = (t.1.1.1, t.1.1.2, t.1.2, t.2).
Proof. by destruct t as [[[? ?] ?] ?]. Qed.

Lemma results_ends_at_last_page_witness :
  run_two_pages.1.1.1 = [page_1_of_2; page_2_of_2]
  /\ envelope (L:=library) page_2_of_2 = Ok (PInt 2, PInt 2)
  /\ run_two_pages.1.1.2 = Finished
  /\ length (requests_since two_pages run_two_pages.2) = 2%nat
  /\ replies (world run_two_pages.2) = [Ok page_1_of_2].
Proof.
  assert (Hp : run_two_pages.1.1.1 = [page_1_of_2; page_2_of_2])
    by (vm_compute; reflexivity).
  assert (He : envelope (L:=library) page_2_of_2 = Ok (PInt 2, PInt 2))
    by (vm_compute; reflexivity).
  assert (Hi : run_two_pages.1.1.1 !! 1%nat = Some page_2_of_2)
    by (rewrite Hp; reflexivity).
  destruct (results_ends_at_last_page (L:=library) (W:=host) 5 functest_client
              (Some epoch) (Some new_year_2018) two_pages _ _ _ _ 1
              page_2_of_2 2 2 (run_eta run_two_pages) Hi He)
    as (_ & Hst & _ & Hreq & _); [lia | lia |].
  split; [exact Hp |]. split; [exact He |]. split; [exact Hst |].
  split; [exact Hreq |]. vm_compute. reflexivity.
Defined.

Lemma results_page_follows_response_witness :
  run_own_numbering.1.1.1 = [page_5_of_10; page_10_of_10]
  /\ (forall r, requests_since own_numbering run_own_numbering.2 !! 0%nat = Some r ->
        payload r !! PPAGE = Some (PInt 1))
  /\ (forall r r',
        requests_since own_numbering run_own_numbering.2 !! 0%nat = Some r ->
        requests_since own_numbering run_own_numbering.2 !! 1%nat = Some r' ->
        payload r' = <[ PPAGE := PInt 6 ]> (payload r)).
Proof.
  assert (Hp : run_own_numbering.1.1.1 = [page_5_of_10; page_10_of_10])
    by (vm_compute; reflexivity).
  destruct (results_page_follows_response (L:=library) (W:=host) 5
              functest_client epoch None own_numbering _ _ _ _
              (run_eta run_own_numbering))
    as (Hfirst & Hstep & _).
  split; [exact Hp |]. split; [exact Hfirst |].
  intros r r' Hr Hr'.
  destruct (Hstep 0%nat page_5_of_10 r r') as (page & total & n & He & Hn & ->);
    [rewrite Hp; reflexivity | exact Hr | exact Hr' |].
  vm_compute in He. injection He as <- <-. injection Hn as <-. reflexivity.
Defined.

(** C3 fails as stated: the server that calls its first page number 5 is
    asked next for page 6, not for page 2. *)
Lemma second_request_page_is_not_two :
  exists r,
    requests_since own_numbering run_own_numbering.2 !! 1%nat = Some r
    /\ payload r !! PPAGE = Some (PInt 6)
    /\ payload r !! PPAGE <> Some (PInt 2).
Proof.
  eexists. split; [vm_compute; reflexivity |].
  split; [vm_compute; reflexivity | vm_compute; discriminate].
Qed.

Lemma results_request_shape_witness :
  exists r,
    requests_since two_pages run_two_pages.2 !! 1%nat = Some r
    /\ method r = GET
    /\ uri r = "http://functest.example/api/v1/results"
    /\ payload r !! PFROM_DATE = Some (PStr "1970-01-01 00:00:00")
    /\ payload r !! PTO_DATE = Some (PStr "2018-01-01 00:00:00")
    /\ payload r !! PPAGE = Some (PInt 2)
    /\ dom (payload r) = ({[ PFROM_DATE; PPAGE; PTO_DATE ]} : gset string)
    /\ String.length (strftime epoch DATE_FORMAT) = 19%nat.
Proof.
  assert (exists r, requests_since two_pages run_two_pages.2 !! 1%nat = Some r)
    as [r Hr] by (eexists; vm_compute; reflexivity).
  exists r. split; [exact Hr |].
  destruct (results_request_shape (L:=library) (W:=host) 5 functest_client
              (Some epoch) (Some new_year_2018) two_pages _ _ _ _ r
              (run_eta run_two_pages) (proj2 (list_elem_of_lookup _ _) (ex_intro _ _ Hr)))
    as (fd & Hfd & Hm & Hu & Hf & _ & Ht & Hdom & Hshape).
  injection Hfd as <-.
  split; [exact Hm |]. split; [exact Hu |]. split; [exact Hf |].
  split; [exact Ht |].
  split; [vm_compute in Hr; injection Hr as <-; vm_compute; reflexivity |].
  split; [rewrite Hdom; set_solver |].
  destruct (Hshape epoch) as [_ Hfour].
  destruct Hfour as [_ Hlen]; [simpl; lia | exact Hlen].
Defined.

Lemma results_window_is_fixed_witness :
  length (requests_since two_pages run_two_pages.2) = 2%nat
  /\ forall r1 r2,
       r1 ∈ requests_since two_pages run_two_pages.2 ->
       r2 ∈ requests_since two_pages run_two_pages.2 ->
       payload r1 !! PFROM_DATE = payload r2 !! PFROM_DATE
       /\ payload r1 !! PTO_DATE = payload r2 !! PTO_DATE.
Proof.
  split; [vm_compute; reflexivity |].
  intros r1 r2 H1 H2.
  destruct (results_window_is_fixed (L:=library) (W:=host) 5 functest_client
              (Some epoch) (Some new_year_2018) two_pages _ _ _ _ r1 r2
              (run_eta run_two_pages) H1 H2)
    as (Hf & Ht & _).
  auto.
Defined.

Lemma fetch_items_yields_pages_in_order_witness :
  exists fuel' f',
    (forall k, (fuel' <= k)%nat ->
       run (fetch_items_next (L:=library)) k
           (fetch_items bound_backend "functest"
              (<[ "to_date" := Some new_year_2018 ]> since_epoch)) two_pages
       = ([record_1; record_b7], Finished, FClosed, f'))
    /\ sent f' = sent run_two_pages.2
    /\ last (logged f') = Some (LogCompleted 2).
Proof.
  assert (Hst : run_two_pages.1.1.2 <> Pending) by (vm_compute; discriminate).
  assert (HP : Forall2 (fun raw items => parse_json (L:=library) raw = Ok (PList items))
                 run_two_pages.1.1.1 [[record_1]; [record_b7]]).
  { replace run_two_pages.1.1.1 with [page_1_of_2; page_2_of_2]
      by (vm_compute; reflexivity).
    repeat constructor. }
  assert (Hfrom : <[ "to_date" := Some new_year_2018 ]> since_epoch !! "from_date"
                  = Some (Some epoch)) by (vm_compute; reflexivity).
  assert (Hto : <[ "to_date" := Some new_year_2018 ]> since_epoch !! "to_date"
                = Some (Some new_year_2018)) by (vm_compute; reflexivity).
  destruct (fetch_items_yields_pages_in_order (L:=library) (W:=host) 5
              bound_backend functest_client "functest"
              (<[ "to_date" := Some new_year_2018 ]> since_epoch)
              (Some epoch) (Some new_year_2018) two_pages _ _ _ _
              [[record_1]; [record_b7]]
              eq_refl Hfrom Hto (run_eta run_two_pages) Hst HP)
    as (fuel' & f' & Hrun & _ & Hs & _ & Hlog).
  exists fuel', f'.
  replace run_two_pages.1.1.2 with Finished in * by (vm_compute; reflexivity).
  split; [exact Hrun |]. split; [exact Hs |]. exact (Hlog eq_refl).
Defined.

Lemma bad_record_is_fatal_witness :
  run_undated_record.1.1.1 = [record_1; record_undated; record_b7]
  /\ exists e'',
       forall k, (8 <= k)%nat ->
         run (Backend_fetch_next (L:=library)) k
             (BItems bound_backend
                (fetch_items bound_backend "functest" since_epoch))
             undated_record_page
         = ([item_1], Failed (KeyError "start_date"), BClosed, e'').
Proof.
  assert (Hp : run_undated_record.1.1.1 = [record_1] ++ record_undated :: [record_b7])
    by (vm_compute; reflexivity).
  split; [exact Hp |].
  assert (R : run (fetch_items_next (L:=library)) 8
                (fetch_items bound_backend "functest" since_epoch)
                undated_record_page
              = ([record_1] ++ record_undated :: [record_b7],
                 run_undated_record.1.1.2, run_undated_record.1.2,
                 run_undated_record.2)).
  { rewrite <- Hp. apply (run_eta run_undated_record). }
  destruct (bad_record_is_fatal (L:=library) (W:=host) 8 bound_backend _ _ _ _
              [record_1] [record_b7] record_undated [item_1] _ R)
    as (x & e'' & _ & Hrun & _ & _ & Hx).
  - repeat constructor.
  - right. left. exists (KeyError "start_date"). reflexivity.
  - exists e''. rewrite <- (Hx _ eq_refl); [exact Hrun | discriminate | reflexivity].
Defined.

Lemma malformed_page_aborts_witness :
  (exists e1,
     (forall fuel,
        run (Backend_fetch_next (L:=library)) (2 + S fuel)
            (Backend_fetch backend "functest" since_epoch) no_results_page
        = ([], Failed (KeyError "results"), BClosed, e1))
     /\ length (sent e1) = 1%nat
     /\ replies (world e1) = [Ok page_2_of_2])
  /\ (exists e1,
        (forall fuel,
           run (Backend_fetch_next (L:=library)) (2 + S fuel)
               (Backend_fetch backend "functest" since_epoch) string_page
           = ([], Failed TypeError, BClosed, e1))
        /\ length (sent e1) = 1%nat).
Proof.
  split.
  - pose (opened := run (Backend_fetch_next (L:=library)) 2
                      (Backend_fetch backend "functest" since_epoch)
                      no_results_page).
    pose (pages := results functest_client (Some epoch) None).
    pose (first := results_next (L:=library) pages opened.2).
    assert (N : results_next (L:=library) pages opened.2
                = (Yield page_without_results, first.1.2, first.2))
      by reflexivity.
    destruct (malformed_page_aborts (L:=library) (W:=host) bound_backend
                _ _ 0 _ _ _ N) as [Hbad _].
    destruct (Hbad (KeyError "results")) as [_ Hrun].
    { right. right. left. eexists. split; [vm_compute; reflexivity |]. auto. }
    exists first.2.
    split; [exact (Hrun 2%nat (Backend_fetch backend "functest" since_epoch)
                     no_results_page [] eq_refl) |].
    split; vm_compute; reflexivity.
  - pose (opened := run (Backend_fetch_next (L:=library)) 2
                      (Backend_fetch backend "functest" since_epoch)
                      string_page).
    pose (pages := results functest_client (Some epoch) None).
    pose (first := results_next (L:=library) pages opened.2).
    assert (N : results_next (L:=library) pages opened.2
                = (Yield page_results_string, first.1.2, first.2))
      by reflexivity.
    destruct (malformed_page_aborts (L:=library) (W:=host) bound_backend
                _ _ 0 _ _ _ N) as [Hbad _].
    destruct (Hbad TypeError) as [_ Hrun].
    { right. right. right. eexists. exists (PStr "ab").
      split; [vm_compute; reflexivity |]. split; [reflexivity |].
      split; [| reflexivity]. right. right. right. left. by eexists _, _. }
    exists first.2.
    split; [exact (Hrun 2%nat (Backend_fetch backend "functest" since_epoch)
                     string_page [] eq_refl) |].
    vm_compute; reflexivity.
Defined.

(** C9 fails as stated: an empty object or an empty string under
    [results] is not an array, yet parsing succeeds, nothing is raised, and
    the call goes on to the next page and ends normally. *)
Lemma page_without_array_is_accepted :
  (forall items, parse_json (L:=library) page_results_object <> Ok (PList items))
  /\ parse_json (L:=library) page_results_object = Ok (PDict [])
  /\ (do g <- fetch (L:=library) (W:=host) backend None None None object_then_page;
      Ok (run (Backend_fetch_next (L:=library)) 12 g object_then_page).1.1)
     = Ok ([item_b7], Finished)
  /\ (forall items,
        parse_json (L:=library) page_results_empty_string <> Ok (PList items))
  /\ parse_json (L:=library) page_results_empty_string = Ok (PStr EmptyString)
  /\ (do g <- fetch (L:=library) (W:=host) backend None None None
                empty_string_then_page;
      Ok (run (Backend_fetch_next (L:=library)) 12 g empty_string_then_page).1.1)
     = Ok ([item_b7], Finished).
Proof.
  split; [intros items; vm_compute; discriminate |].
  split; [vm_compute; reflexivity |].
  split; [reflexivity |].
  split; [intros items; vm_compute; discriminate |].
  split; [vm_compute; reflexivity | reflexivity].
Qed.

End Scenarios.

(** * Further properties of the module *)

Section FurtherProperties.

Context {L : Library} {W : Host}.

Local Open Scope list_scope.

(** ** Identifiers *)

Lemma string_of_Z_inj (a b : Z) : string_of_Z a = string_of_Z b -> a = b.
Proof.
  unfold string_of_Z. intros E.
  assert (Hnn : forall n, Z.to_int n <> Decimal.Pos Decimal.Nil
                          /\ Z.to_int n <> Decimal.Neg Decimal.Nil).
  { intros n. split; intros Hn; pose proof (f_equal Z.of_int Hn) as Hz;
      rewrite DecimalZ.of_to in Hz; simpl in Hz; subst n; discriminate Hn. }
  apply DecimalZ.to_int_inj.
  assert (Some (Z.to_int a) = Some (Z.to_int b)) as [= ->]; [| reflexivity].
  rewrite <- (NilZero.isi (Z.to_int a)), <- (NilZero.isi (Z.to_int b));
    try apply Hnn.
  by rewrite E.
Qed.

(** X1. The identifier does not keep the type of [_id]: a record whose
    [_id] is the string form of another record's [_id] gets the same
    identifier (the integer 1 and the string "1", [null] and "None"). *)
Theorem metadata_id_forgets_type (item item' v : pyval) :
  getitem item "_id" = Ok v ->
  getitem item' "_id" = Ok (PStr (py_str v)) ->
  metadata_id item' = metadata_id item.
Proof.
  intros E E'. unfold metadata_id. rewrite E, E'. reflexivity.
Qed.

(** X2. Among records whose [_id] is an integer, the identifier tells the
    records apart: two of them have the same identifier exactly when the
    integers are the same. *)
Theorem metadata_id_separates_integers (item item' : pyval) (a b : Z) :
  getitem item "_id" = Ok (PInt a) ->
  getitem item' "_id" = Ok (PInt b) ->
  metadata_id item = metadata_id item' <-> a = b.
Proof.
  intros E E'. unfold metadata_id. rewrite E, E'. simpl. split.
  - intros [= Hs]. by apply string_of_Z_inj.
  - by intros ->.
Qed.

(** ** The requests of [results] *)

Lemma strftime_printed_fields (d1 d2 : datetime) :
  printed_fields d1 = printed_fields d2 ->
  strftime d1 DATE_FORMAT = strftime d2 DATE_FORMAT.
Proof.
  unfold printed_fields. intros [= Hy Hm Hd Hh Hmi Hs].
  rewrite !strftime_DATE_FORMAT, Hy, Hm, Hd, Hh, Hmi, Hs. reflexivity.
Qed.

(** X3. [results] sends its window to the second and as the dates read:
    two calls whose dates agree on year, month, day, hour, minute and
    second behave alike, whatever the microseconds and the time zones of
    the dates. *)
Theorem results_sends_whole_seconds (self : FunctestClient)
    (from1 from2 : datetime) (to1 to2 : option datetime) (fuel : nat) (e : env) :
  printed_fields from1 = printed_fields from2 ->
  printed_fields <$> to1 = printed_fields <$> to2 ->
  initial_params from1 to1 = initial_params from2 to2
  /\ run results_next (S fuel) (results self (Some from1) to1) e
     = run results_next (S fuel) (results self (Some from2) to2) e.
Proof.
  intros Hf Ht.
  assert (Hp : initial_params from1 to1 = initial_params from2 to2).
  { unfold initial_params. rewrite (strftime_printed_fields _ _ Hf).
    destruct to1 as [t1|], to2 as [t2|]; try discriminate; [| reflexivity].
    assert (Ht' : printed_fields t1 = printed_fields t2)
      by (simpl in Ht; congruence).
    by rewrite (strftime_printed_fields _ _ Ht'). }
  split; [exact Hp |]. cbn [run results results_next]. by rewrite Hp.
Qed.

(** One resumption of [results] hands at most one request to the
    transport. *)
Lemma results_next_sent (g g1 : results_gen) (e e1 : env) (sig : signal string) :
  results_next g e = (sig, g1, e1) ->
  sent e1 = sent e \/ exists r, sent e1 = sent e ++ [r].
Proof.
  assert (Hreq : forall self params,
            results_request self params e = (sig, g1, e1) ->
            sent e1 = sent e \/ exists r, sent e1 = sent e ++ [r]).
  { intros self params Q.
    destruct (results_request_cases self params e)
      as (e2 & Es & _ & [[c Q'] | [x Q']]); rewrite Q' in Q;
      injection Q as <- <- <-; eauto. }
  destruct g as [self [fd|] td | self params content |]; simpl.
  - apply Hreq.
  - intros [= <- <- <-]. auto.
  - destruct (results_advance params content) as [[params'|]|x].
    + apply Hreq.
    + intros [= <- <- <-]. auto.
    + intros [= <- <- <-]. auto.
  - intros [= <- <- <-]. auto.
Qed.

Lemma run_results_request_count (fuel : nat) :
  forall (g g' : results_gen) (e e' : env) (pages : list string) (st : status),
  run results_next fuel g e = (pages, st, g', e') ->
  exists reqs,
    sent e' = sent e ++ reqs
    /\ (length reqs = length pages
        \/ (length reqs = S (length pages) /\ exists x, st = Failed x)).
Proof.
  induction fuel as [|fuel IH]; intros g g' e e' pages st R.
  - injection R as <- <- <- <-. exists []. rewrite app_nil_r. auto.
  - simpl in R. destruct (results_next g e) as [[sig g1] e1] eqn:N.
    pose proof (results_next_inv _ _ _ _ _ N) as Hinv.
    pose proof (results_next_sent _ _ _ _ _ N) as Hsent.
    destruct sig as [c| | |x].
    + destruct Hinv as [_ [r Es]].
      destruct (run results_next fuel g1 e1) as [[[l st1] g2] e2] eqn:R1.
      injection R as <- <- <- <-.
      apply IH in R1 as (reqs & Es2 & Hlen).
      exists (r :: reqs). rewrite Es2, Es, <- app_assoc. split; [reflexivity |].
      simpl. destruct Hlen as [-> | [-> Hx]]; auto.
    + destruct Hinv.
    + destruct Hinv as [_ ->]. injection R as <- <- <- <-.
      exists []. rewrite app_nil_r. auto.
    + injection R as <- <- <- <-.
      destruct Hsent as [Es | [r Es]].
      * exists []. rewrite app_nil_r. auto.
      * exists [r]. split; [exact Es |]. right. simpl. eauto.
Qed.

(** X4. [results] makes one request for each page it yields, in turn: at
    any point of a run the requests made are as many as the pages
    yielded, or one more when the run has failed (the request that failed
    is not made again); a run that ended normally made exactly one request
    for each page. *)
Theorem results_one_request_per_page (fuel : nat) (self : FunctestClient)
    (from_date to_date : option datetime) (e e' : env) (pages : list string)
    (st : status) (g' : results_gen) :
  run results_next fuel (results self from_date to_date) e
    = (pages, st, g', e') ->
  (length (requests_since e e') = length pages
   \/ (length (requests_since e e') = S (length pages) /\ exists x, st = Failed x))
  /\ (st = Finished -> length (requests_since e e') = length pages)
  /\ (length pages <= fuel)%nat.
Proof.
  intros R.
  destruct (run_results_request_count _ _ _ _ _ _ _ R) as (reqs & Es & Hlen).
  rewrite (requests_since_app _ _ _ Es).
  split; [exact Hlen |]. split.
  - intros ->. destruct Hlen as [Hl | [_ [x Hx]]]; [exact Hl | discriminate].
  - clear -R. revert e e' pages st g' R.
    generalize (results self from_date to_date) as g.
    induction fuel as [|fuel IH]; intros g e e' pages st g' R.
    + injection R as <- <- <- <-. simpl. lia.
    + simpl in R. destruct (results_next g e) as [[[c| | |x] g1] e1].
      * destruct (run results_next fuel g1 e1) as [[[l st1] g2] e2] eqn:R1.
        injection R as <- <- <- <-. apply IH in R1. simpl. lia.
      * apply IH in R. lia.
      * injection R as <- <- <- <-. simpl. lia.
      * injection R as <- <- <- <-. simpl. lia.
Qed.

(** ** Pages that never end, pages without an envelope *)

Lemma results_advance_more (params : gmap string pyval) (content : string)
    (page total_pages : Z) :
  envelope content = Ok (PInt page, PInt total_pages) ->
  page < total_pages ->
  results_advance params content = Ok (Some (<[ PPAGE := PInt (page + 1) ]> params)).
Proof.
  intros E Hlt. rewrite results_advance_envelope, E. simpl.
  replace (page >=? total_pages) with false; [reflexivity |].
  symmetry. rewrite Z.geb_leb. apply Z.leb_gt. lia.
Qed.

Lemma results_request_served (content : string) (self : FunctestClient)
    (params : gmap string pyval) (e : env) :
  (forall c req w, (http_fetch c req w).1 = Ok content) ->
  exists e',
    results_request self params e = (Yield content, RYielded self params content, e')
    /\ sent e' = sent e ++ [get_request self params].
Proof.
  intros Hserve.
  destruct (results_request_cases self params e)
    as (e' & Es & _ & [[c Q] | [x Q]]); exists e'.
  - split; [| exact Es]. rewrite Q.
    unfold results_request, HttpClient_fetch in Q.
    specialize (Hserve self (get_request self params) (world e)).
    unfold get_request, results_url in Hserve.
    destruct (http_fetch _ _ _) as [r w]. simpl in Hserve. subst r.
    injection Q as <- _. reflexivity.
  - exfalso. unfold results_request, HttpClient_fetch in Q.
    specialize (Hserve self (get_request self params) (world e)).
    unfold get_request, results_url in Hserve.
    destruct (http_fetch _ _ _) as [r w]. simpl in Hserve. subst r.
    discriminate.
Qed.

Lemma run_results_stuck (content : string) (page total_pages : Z) :
  (forall c req w, (http_fetch c req w).1 = Ok content) ->
  envelope content = Ok (PInt page, PInt total_pages) ->
  page < total_pages ->
  forall (fuel : nat) (self : FunctestClient) (params : gmap string pyval) (e : env),
  exists g' e' reqs,
    run results_next fuel (RYielded self params content) e
      = (replicate fuel content, Pending, g', e')
    /\ sent e' = sent e ++ reqs /\ length reqs = fuel.
Proof.
  intros Hserve Eenv Hlt. induction fuel as [|fuel IH]; intros self params e.
  - exists (RYielded self params content), e, []. rewrite app_nil_r. auto.
  - cbn [run results_next]. rewrite (results_advance_more _ _ _ _ Eenv Hlt).
    destruct (results_request_served content self
                (<[PPAGE:=PInt (page + 1)]> params) e Hserve) as (e1 & -> & Es).
    destruct (IH self (<[PPAGE:=PInt (page + 1)]> params) e1)
      as (g' & e' & reqs & -> & Es' & Hlen).
    exists g', e', (get_request self (<[PPAGE:=PInt (page + 1)]> params) :: reqs).
    split; [reflexivity |]. rewrite Es', Es, <- app_assoc. simpl. auto.
Qed.

(** X5. [results] has no bound of its own on the number of pages: against
    a server that answers every request with one and the same page whose
    envelope says [current_page < total_pages], it yields that page again
    at every resumption, one request each, and never ends. *)
Theorem results_never_gives_up (content : string) (page total_pages : Z)
    (fuel : nat) (self : FunctestClient) (from_date : datetime)
    (to_date : option datetime) (e : env) :
  (forall c req w, (http_fetch c req w).1 = Ok content) ->
  envelope content = Ok (PInt page, PInt total_pages) ->
  page < total_pages ->
  exists g' e',
    run results_next fuel (results self (Some from_date) to_date) e
      = (replicate fuel content, Pending, g', e')
    /\ length (requests_since e e') = fuel.
Proof.
  intros Hserve Eenv Hlt. destruct fuel as [|fuel].
  - exists (results self (Some from_date) to_date), e.
    rewrite requests_since_refl. auto.
  - cbn [run results results_next].
    destruct (results_request_served content self
                (initial_params from_date to_date) e Hserve) as (e1 & -> & Es).
    destruct (run_results_stuck content page total_pages Hserve Eenv Hlt fuel
                self (initial_params from_date to_date) e1)
      as (g' & e' & reqs & -> & Es' & Hlen).
    exists g', e'. split; [reflexivity |].
    rewrite (requests_since_app e e'
               (get_request self (initial_params from_date to_date) :: reqs)).
    + simpl. by rewrite Hlen.
    + rewrite Es', Es, <- app_assoc. reflexivity.
Qed.

(** X6. [results] yields a page before it reads its envelope, so a page
    with readable records and an unreadable envelope (no [pagination]
    key, say) is not lost: [fetch_items] yields all its records, and only
    then does the call fail, with the error of the envelope and without
    another request. *)
Theorem page_without_envelope_is_read_first (pages pages' : results_gen)
    (ndata : Z) (e e1 : env) (raw : string) (v : pyval)
    (records : list pyval) (x : exn) (k : nat) :
  results_next pages e = (Yield raw, pages', e1) ->
  parse_json raw = Ok v ->
  py_iter v = Ok records ->
  envelope raw = Err x ->
  (length records + 2 <= k)%nat ->
  run fetch_items_next k (FPages pages ndata) e
    = (records, Failed x, FClosed, e1).
Proof.
  intros N Hv Hr Eenv Hk.
  destruct (results_next_inv _ _ _ _ _ N) as [(self & params & ->) _].
  assert (Hfail : forall n,
            run fetch_items_next 1 (FPages (RYielded self params raw) n) e1
            = ([], Failed x, FClosed, e1)).
  { intros n. cbn [run fetch_items_next results_next].
    rewrite results_advance_envelope, Eenv. reflexivity. }
  apply (run_more_fuel _ (length records + 2)); [| discriminate | exact Hk].
  destruct records as [|r rest].
  - cbn [length Nat.add run fetch_items_next]. rewrite N, Hv.
    cbn [rbind]. rewrite Hr. cbn [fetch_items_inner].
    apply (Hfail ndata).
  - replace (length (r :: rest) + 2)%nat with (S (length rest + 1 + 1))
      by (simpl; lia).
    cbn [run fetch_items_next]. rewrite N, Hv. cbn [rbind]. rewrite Hr.
    cbn [fetch_items_inner]. rewrite run_fetch_items_inner, Hfail.
    by rewrite app_nil_r.
Qed.

(** ** Laziness *)

Lemma run_fetch_items_part (k : nat) :
  forall (pages : results_gen) (rest : list pyval) (ndata : Z) (e : env),
  (k <= length rest)%nat ->
  run fetch_items_next k (FYielded pages rest ndata) e
  = (take k rest, Pending,
     FYielded pages (drop k rest) (ndata + Z.of_nat k), e).
Proof.
  induction k as [|k IH]; intros pages rest ndata e Hk.
  - simpl. rewrite Z.add_0_r, drop_0. reflexivity.
  - destruct rest as [|x rest]; [simpl in Hk; lia |].
    cbn [run fetch_items_next fetch_items_inner]. rewrite IH by (simpl in Hk; lia).
    simpl. do 3 f_equal. lia.
Qed.

(** X7. [fetch_items] asks for the next page only when the records of the
    page at hand have all been handed out: yielding the first [k] records
    of a page takes the one request that fetched the page, and leaves the
    rest of the page waiting. *)
Theorem fetch_items_is_lazy (pages pages' : results_gen) (ndata : Z)
    (e e1 : env) (raw : string) (v : pyval) (records : list pyval) (k : nat) :
  results_next pages e = (Yield raw, pages', e1) ->
  parse_json raw = Ok v ->
  py_iter v = Ok records ->
  (0 < k <= length records)%nat ->
  run fetch_items_next k (FPages pages ndata) e
    = (take k records, Pending,
       FYielded pages' (drop k records) (ndata + Z.of_nat k - 1), e1)
  /\ length (requests_since e e1) = 1%nat.
Proof.
  intros N Hv Hr [Hk0 Hk]. split.
  - destruct k as [|k]; [lia |]. destruct records as [|r rest]; [simpl in Hk; lia |].
    cbn [run fetch_items_next]. rewrite N, Hv. cbn [rbind]. rewrite Hr.
    cbn [fetch_items_inner]. rewrite run_fetch_items_part by (simpl in Hk; lia).
    simpl. do 3 f_equal. lia.
  - destruct (results_next_inv _ _ _ _ _ N) as [_ [r Es]].
    by rewrite (requests_since_app _ _ _ Es).
Qed.

(** ** The journal of [fetch_items] *)

Lemma results_next_logged (g g1 : results_gen) (e e1 : env) (sig : signal string) :
  results_next g e = (sig, g1, e1) -> logged e1 = logged e.
Proof.
  intros N.
  destruct (results_next_same_io _ _ _ _ e _ eq_refl eq_refl N)
    as (f1 & N' & _ & _ & Hl).
  rewrite N in N'. by injection N' as <-.
Qed.

(** The count kept by [fetch_items] is the number of records yielded so
    far; it is logged at a normal end and at no other time. *)
Lemma run_fetch_items_logged (fuel : nat) :
  (forall (pages : results_gen) (ndata : Z) (e e' : env) (items : list pyval)
      (st : status) (g' : fetch_items_gen),
     run fetch_items_next fuel (FPages pages ndata) e = (items, st, g', e') ->
     logged e' = logged e ++
       match st with
       | Finished => [LogCompleted (ndata + Z.of_nat (length items))]
       | _ => []
       end)
  /\ (forall (pages : results_gen) (rest : list pyval) (ndata : Z) (e e' : env)
        (items : list pyval) (st : status) (g' : fetch_items_gen),
       run fetch_items_next fuel (FYielded pages rest ndata) e = (items, st, g', e') ->
       logged e' = logged e ++
         match st with
         | Finished => [LogCompleted (ndata + 1 + Z.of_nat (length items))]
         | _ => []
         end).
Proof.
  induction fuel as [|fuel [IHp IHy]].
  - split; intros; match goal with R : run _ _ _ _ = _ |- _ =>
      injection R as <- <- <- <- end; by rewrite app_nil_r.
  - assert (Hinner : forall pages parsed ndata e e' items st g',
              (let '(sig, g1, e1) := fetch_items_inner pages parsed ndata e in
               match sig with
               | Yield a =>
                   let '(l, st, g'', e'') := run fetch_items_next fuel g1 e1 in
                   (a :: l, st, g'', e'')
               | Tau => run fetch_items_next fuel g1 e1
               | Stop => ([], Finished, g1, e1)
               | Raise x => ([], Failed x, g1, e1)
               end) = (items, st, g', e') ->
              logged e' = logged e ++
                match st with
                | Finished => [LogCompleted (ndata + Z.of_nat (length items))]
                | _ => []
                end).
    { intros pages parsed ndata e e' items st g' R.
      destruct parsed as [|x rest]; cbn [fetch_items_inner] in R.
      - by apply IHp in R.
      - destruct (run fetch_items_next fuel _ e) as [[[l st1] g2] e2] eqn:R1.
        injection R as <- <- <- <-. apply IHy in R1. rewrite R1.
        f_equal. destruct st1; try reflexivity. simpl length. do 2 f_equal. lia. }
    split.
    + intros pages ndata e e' items st g' R. cbn [run fetch_items_next] in R.
      destruct (results_next pages e) as [[sig p1] e1] eqn:N.
      apply results_next_logged in N. rewrite <- N.
      destruct sig as [raw| | |x].
      * destruct (do parsed_data <- parse_json raw; py_iter parsed_data)
          as [parsed|x].
        -- apply (Hinner p1 parsed ndata e1 e' items st g').
           destruct (fetch_items_inner p1 parsed ndata e1) as [[sig g1] e2].
           exact R.
        -- injection R as <- <- <- <-. by rewrite app_nil_r.
      * by apply IHp in R.
      * injection R as <- <- <- <-. simpl. by rewrite Z.add_0_r.
      * injection R as <- <- <- <-. by rewrite app_nil_r.
    + intros pages rest ndata e e' items st g' R. cbn [run fetch_items_next] in R.
      apply (Hinner pages rest (ndata + 1) e e' items st g').
      destruct (fetch_items_inner pages rest (ndata + 1) e) as [[sig g1] e2].
      exact R.
Qed.

(** X8. [fetch_items] logs its start once and, when the iteration ends
    normally, the number of records it has yielded, whatever the pages
    held; a call that fails or is left unfinished logs no completion. *)
Theorem fetch_items_logs_its_count (fuel : nat) (self : Functest)
    (category : string) (kwargs : gmap string (option datetime)) (e e' : env)
    (items : list pyval) (st : status) (g' : fetch_items_gen) :
  run fetch_items_next fuel (fetch_items self category kwargs) e
    = (items, st, g', e') ->
  (st = Finished ->
     exists from_date to_date,
       kwargs !! "from_date" = Some from_date
       /\ kwargs !! "to_date" = Some to_date
       /\ logged e' = logged e ++
            [LogFetching (url self) from_date to_date;
             LogCompleted (Z.of_nat (length items))])
  /\ (st <> Finished ->
      forall n, LogCompleted n ∈ logged e' -> LogCompleted n ∈ logged e).
Proof.
  intros R. destruct fuel as [|fuel].
  { injection R as <- <- <- <-. split; [discriminate | auto]. }
  cbn [run fetch_items fetch_items_next] in R.
  unfold fetch_items_start, kwarg in R.
  destruct (kwargs !! "from_date") as [fd|].
  2:{ injection R as <- <- <- <-. split; [discriminate | auto]. }
  destruct (kwargs !! "to_date") as [td|].
  2:{ injection R as <- <- <- <-. split; [discriminate | auto]. }
  destruct (client self) as [c|].
  - apply (proj1 (run_fetch_items_logged fuel)) in R. simpl in R. split.
    + intros ->. exists fd, td. rewrite R, <- app_assoc. auto.
    + intros Hst n Hin. rewrite R in Hin. destruct st; [congruence | |];
        rewrite app_nil_r in Hin; apply elem_of_app in Hin as [Hin | Hin]; auto;
        apply list_elem_of_singleton in Hin; discriminate.
  - injection R as <- <- <- <-. split; [discriminate |].
    intros _ n Hin. simpl in Hin. apply elem_of_app in Hin as [Hin | Hin]; auto.
    apply list_elem_of_singleton in Hin. discriminate.
Qed.

(** ** Starting [fetch_items] *)

(** X9. What stops [fetch_items] before any request: a [kwargs] without
    [from_date], or with it and without [to_date], raises the [KeyError]
    of the missing key; with both, a backend that has no client raises
    [AttributeError], and this is the state [__init__] leaves a backend in.
    In each case nothing was sent. *)
Theorem fetch_items_needs_dates_and_client (fuel : nat) (self : Functest)
    (category : string) (kwargs : gmap string (option datetime)) (e : env) :
  (kwargs !! "from_date" = None ->
     run fetch_items_next (S fuel) (fetch_items self category kwargs) e
       = ([], Failed (KeyError "from_date"), FClosed, e))
  /\ (kwargs !! "from_date" <> None -> kwargs !! "to_date" = None ->
      run fetch_items_next (S fuel) (fetch_items self category kwargs) e
        = ([], Failed (KeyError "to_date"), FClosed, e))
  /\ (forall from_date to_date,
        kwargs !! "from_date" = Some from_date ->
        kwargs !! "to_date" = Some to_date ->
        client self = None ->
        run fetch_items_next (S fuel) (fetch_items self category kwargs) e
          = ([], Failed AttributeError, FClosed,
             logger_info (LogFetching (url self) from_date to_date) e))
  /\ (forall u t a, client (Functest_init u t a) = None).
Proof.
  repeat split.
  - intros Hf. cbn [run fetch_items fetch_items_next].
    unfold fetch_items_start, kwarg. by rewrite Hf.
  - intros Hf Ht. cbn [run fetch_items fetch_items_next].
    unfold fetch_items_start, kwarg.
    destruct (kwargs !! "from_date"); [| congruence]. by rewrite Ht.
  - intros fd td Hf Ht Hc. cbn [run fetch_items fetch_items_next].
    unfold fetch_items_start, kwarg. by rewrite Hf, Ht, Hc.
Qed.

(** ** From [fetch] to the requests *)

(** Whatever [fetch_items] has sent, a run of the [results] generator it
    iterates has sent. *)
Lemma run_fetch_items_simulates (fuel : nat) :
  (forall (g : results_gen) (ndata : Z) (e f f' : env) (items : list pyval)
      (st : status) (g' : fetch_items_gen),
     world f = world e -> sent f = sent e ->
     run fetch_items_next fuel (FPages g ndata) f = (items, st, g', f') ->
     exists fuel' pages st2 g2 e',
       run results_next fuel' g e = (pages, st2, g2, e')
       /\ sent f' = sent e')
  /\ (forall (g : results_gen) (rest : list pyval) (ndata : Z) (e f f' : env)
        (items : list pyval) (st : status) (g' : fetch_items_gen),
       world f = world e -> sent f = sent e ->
       run fetch_items_next fuel (FYielded g rest ndata) f = (items, st, g', f') ->
       exists fuel' pages st2 g2 e',
         run results_next fuel' g e = (pages, st2, g2, e')
         /\ sent f' = sent e').
Proof.
  induction fuel as [|fuel [IHp IHy]].
  - split; intros; match goal with R : run _ _ _ _ = _ |- _ =>
      injection R as <- <- <- <- end;
      exists 0%nat, [], Pending, g, e; auto.
  - assert (Hinner : forall g parsed ndata e f f' items st g',
              world f = world e -> sent f = sent e ->
              (let '(sig, g1, e1) := fetch_items_inner g parsed ndata f in
               match sig with
               | Yield a =>
                   let '(l, st, g'', e'') := run fetch_items_next fuel g1 e1 in
                   (a :: l, st, g'', e'')
               | Tau => run fetch_items_next fuel g1 e1
               | Stop => ([], Finished, g1, e1)
               | Raise x => ([], Failed x, g1, e1)
               end) = (items, st, g', f') ->
              exists fuel' pages st2 g2 e',
                run results_next fuel' g e = (pages, st2, g2, e')
                /\ sent f' = sent e').
    { intros g parsed ndata e f f' items st g' Hw Hs R.
      destruct parsed as [|x rest]; cbn [fetch_items_inner] in R.
      - by apply (IHp g ndata e f f' items st g').
      - destruct (run fetch_items_next fuel _ f) as [[[l st1] g2] e2] eqn:R1.
        injection R as <- <- <- <-.
        by apply (IHy g rest ndata e f e2 l st1 g2). }
    split.
    + intros g ndata e f f' items st g' Hw Hs R.
      cbn [run fetch_items_next] in R.
      destruct (results_next g f) as [[sig g1] f1] eqn:N.
      pose proof (results_next_inv _ _ _ _ _ N) as Hinv.
      destruct (results_next_same_io _ _ _ _ e _ (eq_sym Hw) (eq_sym Hs) N)
        as (e1 & Ne & Hw1 & Hs1 & _).
      destruct sig as [raw| | |x].
      * destruct (do parsed_data <- parse_json raw; py_iter parsed_data)
          as [parsed|x].
        -- destruct (Hinner g1 parsed ndata e1 f1 f' items st g')
             as (fuel' & pages & st2 & g2 & e' & R' & Hs');
             [congruence | congruence | |].
           { destruct (fetch_items_inner g1 parsed ndata f1) as [[sig g3] e3].
             exact R. }
           exists (S fuel'), (raw :: pages), st2, g2, e'.
           cbn [run]. rewrite Ne, R'. auto.
        -- injection R as <- <- <- <-.
           exists 1%nat, [raw], Pending, g1, e1. cbn [run]. rewrite Ne. auto.
      * destruct Hinv.
      * injection R as <- <- <- <-.
        exists 1%nat, [], Finished, g1, e1. cbn [run]. rewrite Ne. auto.
      * injection R as <- <- <- <-.
        exists 1%nat, [], (Failed x), g1, e1. cbn [run]. rewrite Ne. auto.
    + intros g rest ndata e f f' items st g' Hw Hs R.
      cbn [run fetch_items_next] in R.
      apply (Hinner g rest (ndata + 1) e f f' items st g' Hw Hs).
      destruct (fetch_items_inner g rest (ndata + 1) f) as [[sig g1] e2].
      exact R.
Qed.

(** Every request of [fetch_items] is a request of its client for the
    window of [kwargs], [page] apart. *)
Lemma run_fetch_items_requests (fuel : nat) (self : Functest)
    (c : FunctestClient) (category : string)
    (kwargs : gmap string (option datetime)) (from_date : datetime)
    (to_date : option datetime) (e e' : env) (items : list pyval)
    (st : status) (g' : fetch_items_gen) (r : request) :
  client self = Some c ->
  kwargs !! "from_date" = Some (Some from_date) ->
  kwargs !! "to_date" = Some to_date ->
  run fetch_items_next fuel (fetch_items self category kwargs) e
    = (items, st, g', e') ->
  r ∈ requests_since e e' ->
  exists n, r = get_request c (<[ PPAGE := PInt n ]> (initial_params from_date to_date)).
Proof.
  intros Hc Hf Ht R Hin. destruct fuel as [|fuel].
  { injection R as <- <- <- <-. rewrite requests_since_refl in Hin.
    by apply elem_of_nil in Hin. }
  cbn [run fetch_items fetch_items_next] in R.
  unfold fetch_items_start, kwarg in R. rewrite Hf, Ht, Hc in R.
  destruct (proj1 (run_fetch_items_simulates fuel) _ _ e
              (logger_info (LogFetching (url self) (Some from_date) to_date) e)
              _ _ _ _ eq_refl eq_refl R)
    as (fuel' & pages & st2 & g2 & e2 & R' & Hs).
  apply (run_results_requests _ _ _ _ _ _ _ _ _ _ R').
  unfold requests_since in *. by rewrite <- Hs.
Qed.

(** X10. The window that [fetch] resolves is the window of every request
    of the call: with the client that [_init_client] makes for the
    backend, each request that [fetch_items] sends for the arguments
    [fetch] hands on is a GET of the results resource of the backend's
    URL, with [from] and [to] both present and written from the two
    resolved dates. *)
Theorem fetch_window_reaches_every_request (self : Functest)
    (category : option string) (from_date to_date : option (option datetime))
    (e0 : env) (g : Backend_fetch_gen) :
  fetch self category from_date to_date e0 = Ok g ->
  exists cat fd td,
    g = Backend_fetch self cat {[ "from_date" := Some fd; "to_date" := Some td ]}
    /\ forall fuel e e' items st g' r,
         run fetch_items_next fuel
             (fetch_items (with_client self (_init_client self false)) cat
                {[ "from_date" := Some fd; "to_date" := Some td ]}) e
           = (items, st, g', e') ->
         r ∈ requests_since e e' ->
         method r = GET
         /\ uri r = (strip "/" (url self) ++ "/api/v1/results")%string
         /\ payload r !! PFROM_DATE = Some (PStr (strftime fd DATE_FORMAT))
         /\ payload r !! PTO_DATE = Some (PStr (strftime td DATE_FORMAT)).
Proof.
  unfold fetch. intros E.
  apply rbind_ok in E as (fd & _ & E). apply rbind_ok in E as (td & _ & E).
  injection E as <-.
  exists (default CATEGORY_FUNCTEST category), fd, td. split; [reflexivity |].
  intros fuel e e' items st g' r R Hin.
  destruct (run_fetch_items_requests fuel
              (with_client self (_init_client self false))
              (_init_client self false) (default CATEGORY_FUNCTEST category)
              {[ "from_date" := Some fd; "to_date" := Some td ]} fd
              (Some td) e e' items st g' r eq_refl) as [n ->]; try assumption.
  - by simplify_map_eq.
  - by simplify_map_eq.
  - unfold get_request. cbn [method uri payload].
    split; [reflexivity |]. split; [reflexivity |].
    split; rewrite lookup_insert_ne by done.
    + apply initial_params_from.
    + rewrite initial_params_to. reflexivity.
Qed.

End FurtherProperties.

(** * The further properties on the sample library and host *)

Section FurtherScenarios.

Import Sample.

Local Open Scope list_scope.

Lemma metadata_id_forgets_type_witness :
  getitem record_1 "_id" = Ok (PInt 1)
  /\ getitem record_1_as_text "_id" = Ok (PStr "1")
  /\ metadata_id (L:=library) record_1_as_text = metadata_id (L:=library) record_1.
Proof.
  split; [reflexivity |]. split; [reflexivity |].
  exact (metadata_id_forgets_type (L:=library) record_1 record_1_as_text (PInt 1)
           eq_refl eq_refl).
Defined.

Lemma metadata_id_separates_integers_witness :
  getitem record_1 "_id" = Ok (PInt 1)
  /\ getitem record_undated "_id" = Ok (PInt 2)
  /\ metadata_id (L:=library) record_1 <> metadata_id (L:=library) record_undated.
Proof.
  split; [reflexivity |]. split; [reflexivity |]. intros Heq.
  apply (metadata_id_separates_integers (L:=library) record_1 record_undated 1 2
           eq_refl eq_refl) in Heq.
  discriminate Heq.
Defined.

Lemma results_sends_whole_seconds_witness :
  printed_fields epoch = printed_fields epoch_and_a_bit
  /\ initial_params epoch_and_a_bit None = initial_params epoch None
  /\ run (results_next (L:=library)) 3
         (results functest_client (Some epoch_and_a_bit) None) two_pages
     = run (results_next (L:=library)) 3
         (results functest_client (Some epoch) None) two_pages.
Proof.
  split; [reflexivity |].
  exact (results_sends_whole_seconds (L:=library) (W:=host) functest_client
           epoch_and_a_bit epoch None None 2 two_pages eq_refl eq_refl).
Defined.

Lemma results_one_request_per_page_witness :
  run_two_pages.1.1.2 = Finished
  /\ length run_two_pages.1.1.1 = 2%nat
  /\ length (requests_since two_pages run_two_pages.2) = length run_two_pages.1.1.1.
Proof.
  assert (Hst : run_two_pages.1.1.2 = Finished) by (vm_compute; reflexivity).
  split; [exact Hst |]. split; [vm_compute; reflexivity |].
  exact (proj1 (proj2 (results_one_request_per_page (L:=library) (W:=host) 5
                         functest_client (Some epoch) (Some new_year_2018)
                         two_pages _ _ _ _ (run_eta run_two_pages))) Hst).
Defined.

Lemma results_never_gives_up_witness :
  envelope (L:=library) page_5_of_10 = Ok (PInt 5, PInt 10)
  /\ exists g' e',
       run (results_next (L:=library) (W:=stuck_host)) 4
           (results functest_client (Some epoch) None) stuck_start
       = ([page_5_of_10; page_5_of_10; page_5_of_10; page_5_of_10], Pending, g', e')
       /\ length (requests_since stuck_start e') = 4%nat.
Proof.
  assert (He : envelope (L:=library) page_5_of_10 = Ok (PInt 5, PInt 10))
    by (vm_compute; reflexivity).
  split; [exact He |].
  apply (results_never_gives_up (L:=library) (W:=stuck_host) page_5_of_10 5 10 4
           functest_client epoch None stuck_start);
    [intros c req w; reflexivity | exact He | lia].
Defined.

Lemma page_without_envelope_is_read_first_witness :
  envelope (L:=library) page_without_pagination = Err (KeyError "pagination")
  /\ run (fetch_items_next (L:=library)) 4
         (FPages (results functest_client (Some epoch) None) 0) no_pagination_page
     = ([record_1; record_b7], Failed (KeyError "pagination"), FClosed,
        first_no_pagination.2)
  /\ replies (world first_no_pagination.2) = [Ok page_2_of_2].
Proof.
  assert (He : envelope (L:=library) page_without_pagination
               = Err (KeyError "pagination")) by (vm_compute; reflexivity).
  assert (N : results_next (L:=library) (W:=host)
                (results functest_client (Some epoch) None) no_pagination_page
              = (Yield page_without_pagination, first_no_pagination.1.2,
                 first_no_pagination.2))
    by (vm_compute; reflexivity).
  assert (Hv : parse_json (L:=library) page_without_pagination
               = Ok (PList [record_1; record_b7])) by (vm_compute; reflexivity).
  split; [exact He |]. split; [| vm_compute; reflexivity].
  apply (page_without_envelope_is_read_first (L:=library) (W:=host) _ _ 0 _ _ _ _
           [record_1; record_b7] _ 4 N Hv eq_refl He).
  simpl. lia.
Defined.

Lemma fetch_items_is_lazy_witness :
  run (fetch_items_next (L:=library)) 2
      (FPages (results functest_client (Some epoch) None) 0) undated_record_page
  = ([record_1; record_undated], Pending,
     FYielded first_undated.1.2 [record_b7] 1, first_undated.2)
  /\ length (requests_since undated_record_page first_undated.2) = 1%nat.
Proof.
  assert (N : results_next (L:=library) (W:=host)
                (results functest_client (Some epoch) None) undated_record_page
              = (Yield page_undated_record, first_undated.1.2, first_undated.2))
    by (vm_compute; reflexivity).
  assert (Hv : parse_json (L:=library) page_undated_record
               = Ok (PList [record_1; record_undated; record_b7]))
    by (vm_compute; reflexivity).
  apply (fetch_items_is_lazy (L:=library) (W:=host) _ _ 0 _ _ _ _
           [record_1; record_undated; record_b7] 2 N Hv eq_refl).
  simpl. lia.
Defined.

Lemma fetch_items_logs_its_count_witness :
  run_two_pages_items.1.1.1 = [record_1; record_b7]
  /\ run_two_pages_items.1.1.2 = Finished
  /\ logged run_two_pages_items.2
     = [LogFetching functest_url (Some epoch) None; LogCompleted 2].
Proof.
  assert (Hi : run_two_pages_items.1.1.1 = [record_1; record_b7])
    by (vm_compute; reflexivity).
  assert (Hst : run_two_pages_items.1.1.2 = Finished) by (vm_compute; reflexivity).
  split; [exact Hi |]. split; [exact Hst |].
  destruct (proj1 (fetch_items_logs_its_count (L:=library) (W:=host) 9
                     bound_backend "functest" since_epoch two_pages _ _ _ _
                     (run_eta run_two_pages_items)) Hst)
    as (fd & td & Hf & Ht & Hl).
  rewrite Hl, Hi. vm_compute in Hf, Ht. injection Hf as <-. injection Ht as <-.
  reflexivity.
Defined.

Lemma fetch_window_reaches_every_request_witness :
  exists cat fd td,
    fetch (L:=library) (W:=host) backend None None None single_page
    = Ok (Backend_fetch backend cat
            {[ "from_date" := Some fd; "to_date" := Some td ]})
    /\ forall r,
         r ∈ requests_since single_page
               (run (fetch_items_next (L:=library)) 5
                    (fetch_items (with_client backend (_init_client backend false))
                       cat {[ "from_date" := Some fd; "to_date" := Some td ]})
                    single_page).2 ->
         uri r = "http://functest.example/api/v1/results"
         /\ payload r !! PTO_DATE = Some (PStr (strftime td DATE_FORMAT)).
Proof.
  destruct (fetch_window_reaches_every_request (L:=library) (W:=host) backend
              None None None single_page _ eq_refl)
    as (cat & fd & td & Hg & Hreq).
  exists cat, fd, td. split; [exact (f_equal Ok Hg) |].
  intros r Hin.
  destruct (Hreq 5%nat single_page _ _ _ _ r (run_eta _) Hin)
    as (_ & Hu & _ & Ht).
  split; [exact Hu | exact Ht].
Defined.

End FurtherScenarios.
